(** * Auto-translate plugin: the message hook, the providers and the output sanitizer

    A shallow embedding of [src/server/provider.go] and of the two revisions of
    [MessageHasBeenPosted] ([src/server/activate_hooks.go] and the
    attachment-styled revision), with the properties the specification states
    about them.

    Go strings are byte sequences: they are modelled by [string], whose
    characters are the 8-bit [ascii] values, so a literal holding non-ASCII
    text stands for its UTF-8 bytes exactly as in the Go source file. *)

From Stdlib Require Import ssreflect Ascii ZArith QArith_base.
From stdpp Require Import gmap strings list pretty.

Local Open Scope Z_scope.
Set Warnings "-rewrite-rw".

(** ** Go's [strings] package, as far as the plugin uses it *)

Module strings.

Abbreviation len := String.length.

(** [s[n:]] and [s[:n]] for an index inside the string. *)
Fixpoint drop (n : nat) (s : string) : string :=
  match n, s with
  | O, _ => s
  | S _, EmptyString => EmptyString
  | S k, String _ r => drop k r
  end.

Fixpoint take (n : nat) (s : string) : string :=
  match n, s with
  | O, _ => EmptyString
  | S _, EmptyString => EmptyString
  | S k, String c r => String c (take k r)
  end.

(** The slice expression [s[lo:hi]]. Go panics unless [0 <= lo <= hi <= len(s)];
    [None] stands for that run-time panic. *)
Definition slice (s : string) (lo hi : Z) : option string :=
  if (0 <=? lo) && (lo <=? hi) && (hi <=? Z.of_nat (len s))
  then Some (take (Z.to_nat (hi - lo)) (drop (Z.to_nat lo) s))
  else None.

Definition HasPrefix (s prefix : string) : bool := String.prefix prefix s.

(** [len(s) >= len(suffix) && s[len(s)-len(suffix):] == suffix] *)
Definition HasSuffix (s suffix : string) : bool :=
  (len suffix <=? len s)%nat && String.eqb (drop (len s - len suffix) s) suffix.

Definition TrimPrefix (s prefix : string) : string :=
  if HasPrefix s prefix then drop (len prefix) s else s.

(** Index of the first instance of [substr] in [s]; [None] is Go's [-1]. *)
Fixpoint Index (s substr : string) : option nat :=
  if String.prefix substr s then Some O
  else match s with
       | EmptyString => None
       | String _ r => S <$> Index r substr
       end.

Definition bytes (l : list N) : string :=
  foldr (fun n s => String (ascii_of_N n) s) EmptyString l.

(** The UTF-8 encodings of the runes for which [unicode.IsSpace] holds:
    tab, LF, VT, FF, CR, space, U+0085, U+00A0, U+1680, U+2000..U+200A,
    U+2028, U+2029, U+202F, U+205F and U+3000.  Decoding a string forwards
    ([utf8.DecodeRuneInString]) yields one of these runes exactly when the
    string starts with its encoding, and decoding it backwards
    ([utf8.DecodeLastRuneInString]) exactly when the string ends with it;
    an invalid byte decodes to U+FFFD, which is not a space. *)
Definition spaceEncodings : list string :=
  bytes [0x09%N] :: bytes [0x0A%N] :: bytes [0x0B%N] :: bytes [0x0C%N]
  :: bytes [0x0D%N] :: bytes [0x20%N]
  :: bytes [0xC2; 0x85]%N :: bytes [0xC2; 0xA0]%N
  :: bytes [0xE1; 0x9A; 0x80]%N
  :: ((fun k => bytes [0xE2; 0x80; k]%N) <$>
        [0x80; 0x81; 0x82; 0x83; 0x84; 0x85; 0x86; 0x87; 0x88; 0x89; 0x8A;
         0xA8; 0xA9; 0xAF])%N
  ++ [bytes [0xE2; 0x81; 0x9F]%N; bytes [0xE3; 0x80; 0x80]%N].

(** The encoding of the space rune [s] starts with, respectively ends with. *)
Definition leadingSpace (s : string) : option string :=
  List.find (HasPrefix s) spaceEncodings.

Definition trailingSpace (s : string) : option string :=
  List.find (HasSuffix s) spaceEncodings.

(** [TrimLeftFunc(s, unicode.IsSpace)]: the loop over the leading runes,
    which runs at most [len s] times. *)
Fixpoint trimLeft (fuel : nat) (s : string) : string :=
  match fuel with
  | O => s
  | S k => match leadingSpace s with
           | Some q => trimLeft k (drop (len q) s)
           | None => s
           end
  end.

(** [TrimRightFunc(s, unicode.IsSpace)]. *)
Fixpoint trimRight (fuel : nat) (s : string) : string :=
  match fuel with
  | O => s
  | S k => match trailingSpace s with
           | Some q => trimRight k (take (len s - len q) s)
           | None => s
           end
  end.

Definition TrimSpace (s : string) : string :=
  let l := trimLeft (len s) s in trimRight (len l) l.

End strings.

Definition DQ : string := String "034"%char EmptyString.
Definition SQ : string := String "039"%char EmptyString.
Definition LF : string := String "010"%char EmptyString.

(** ** The output sanitizer ([src/server/provider.go]) *)

Definition unwantedPrefixes : list string :=
  [ "Translation: ";
    "Translated text: ";
    "Here is the translation: ";
    "The translation is: ";
    "Output: ";
    "Answer: ";
    "Result: " ].

(** One iteration of the loop over [unwantedPrefixes]. *)
Definition stripPrefix (text prefix : string) : string :=
  if strings.HasPrefix text prefix
  then strings.TrimSpace (strings.TrimPrefix text prefix)
  else text.

(** The condition of the quote-removal step. *)
Definition isQuoted (text : string) : bool :=
  (strings.HasPrefix text DQ && strings.HasSuffix text DQ)
  || (strings.HasPrefix text SQ && strings.HasSuffix text SQ).

Definition noteMarker : string := LF +:+ LF +:+ "Note:".
Definition explanationMarker : string := LF +:+ LF +:+ "Explanation:".

(** [text[:idx]] when [substr] occurs in [text] at [idx]. *)
Definition truncateAt (text substr : string) : option string :=
  match strings.Index text substr with
  | Some idx => strings.slice text 0 (Z.of_nat idx)
  | None => Some text
  end.

(** [cleanTranslationOutput]; [None] is a run-time panic of the slice
    expression [text[1 : len(text)-1]]. *)
Definition cleanTranslationOutput (text : string) : option string :=
  let text := strings.TrimSpace text in
  let text := foldl stripPrefix text unwantedPrefixes in
  text ← (if isQuoted text
          then strings.TrimSpace <$>
                 strings.slice text 1 (Z.of_nat (strings.len text) - 1)
          else Some text);
  text ← truncateAt text noteMarker;
  text ← truncateAt text explanationMarker;
  Some (strings.TrimSpace text).

(** ** The language catalog ([src/server/provider.go]) *)

Definition clarifications : gmap string string :=
  list_to_map
    [ ("ko", " (한국어, using Hangul script, NOT Chinese)");
      ("ja", " (日本語, using Hiragana/Katakana/Kanji, NOT Chinese or Korean)");
      ("zh", " (中文简体, Simplified Chinese characters)");
      ("zh-TW", " (中文繁體, Traditional Chinese characters)");
      ("en", " (English)");
      ("ar", " (العربية, Arabic script)");
      ("he", " (עברית, Hebrew script)");
      ("hi", " (हिन्दी, Devanagari script)");
      ("ru", " (Русский, Cyrillic script)");
      ("th", " (ไทย, Thai script)") ].

Definition getLanguageClarification (code : string) : string :=
  match clarifications !! code with
  | Some clarification => clarification
  | None => ""
  end.

Definition languageNames : gmap string string :=
  list_to_map
    [ ("auto", "Auto-detect"); ("af", "Afrikaans"); ("sq", "Albanian");
      ("am", "Amharic"); ("ar", "Arabic"); ("hy", "Armenian");
      ("az", "Azerbaijani"); ("bn", "Bengali"); ("bs", "Bosnian");
      ("bg", "Bulgarian"); ("ca", "Catalan"); ("zh", "Chinese (Simplified)");
      ("zh-TW", "Chinese (Traditional)"); ("hr", "Croatian"); ("cs", "Czech");
      ("da", "Danish"); ("fa-AF", "Dari"); ("nl", "Dutch"); ("en", "English");
      ("et", "Estonian"); ("fa", "Farsi (Persian)"); ("tl", "Filipino, Tagalog");
      ("fi", "Finnish"); ("fr", "French"); ("fr-CA", "French (Canada)");
      ("ka", "Georgian"); ("de", "German"); ("el", "Greek"); ("gu", "Gujarati");
      ("ht", "Haitian Creole"); ("ha", "Hausa"); ("he", "Hebrew");
      ("hi", "Hindi"); ("hu", "Hungarian"); ("is", "Icelandic");
      ("id", "Indonesian"); ("it", "Italian"); ("ja", "Japanese");
      ("kn", "Kannada"); ("kk", "Kazakh"); ("ko", "Korean"); ("lv", "Latvian");
      ("lt", "Lithuanian"); ("mk", "Macedonian"); ("ms", "Malay");
      ("ml", "Malayalam"); ("mt", "Maltese"); ("mr", "Marathi");
      ("mn", "Mongolian"); ("no", "Norwegian"); ("ps", "Pashto");
      ("pl", "Polish"); ("pt", "Portuguese"); ("pa", "Punjabi");
      ("ro", "Romanian"); ("ru", "Russian"); ("sr", "Serbian");
      ("si", "Sinhala"); ("sk", "Slovak"); ("sl", "Slovenian"); ("so", "Somali");
      ("es", "Spanish"); ("es-MX", "Spanish (Mexico)"); ("sw", "Swahili");
      ("sv", "Swedish"); ("ta", "Tamil"); ("te", "Telugu"); ("th", "Thai");
      ("tr", "Turkish"); ("uk", "Ukrainian"); ("ur", "Urdu"); ("uz", "Uzbek");
      ("vi", "Vietnamese"); ("cy", "Welsh") ].

Definition getLanguageName (code : string) : string :=
  match languageNames !! code with
  | Some name => name
  | None => code
  end.

(** ** Wire types and the outside world of the providers *)

(** An [error] value is represented by its message, [err.Error()]. *)
Definition error : Type := string.

(** Go's [(value, error)] result pair. *)
Inductive result (A : Type) : Type :=
| Ok (a : A)
| Err (e : error).
Arguments Ok {A} a.
Arguments Err {A} e.

(** The value [json.Marshal] encodes, as the tree of its JSON text. *)
#[warning="-register-all"]
Inductive json : Type :=
| JString (s : string)
| JInt (n : Z)
| JNumber (q : Q)
| JArray (items : list json)
| JObject (fields : list (string * json)).

Record VLLMRequest : Type := {
  vllm_Model : string;
  vllm_Prompt : string;
  vllm_MaxTokens : Z;
  vllm_Temperature : Q;
  vllm_Stop : list string
}.

Record VLLMChoice : Type := { Text : string }.
Record VLLMResponse : Type := { vllm_Choices : list VLLMChoice }.

Record LiteLLMChatMessage : Type := { Role : string; Content : string }.

Record LiteLLMChatRequest : Type := {
  chat_Model : string;
  chat_Messages : list LiteLLMChatMessage;
  chat_Temperature : Q;
  chat_MaxTokens : Z
}.

Record LiteLLMChoice : Type := { Message_ : LiteLLMChatMessage }.
Record LiteLLMChatResponse : Type := { chat_Choices : list LiteLLMChoice }.

(** A struct field tagged [omitempty] is left out when it holds its zero value. *)
Definition omitempty (empty : bool) (key : string) (v : json)
  : list (string * json) :=
  if empty then [] else [(key, v)].

(** [json.Marshal] of the two request structs, following their field tags.
    It cannot fail on these types. *)
Definition Marshal_VLLMRequest (r : VLLMRequest) : json :=
  JObject
    ([("model", JString (vllm_Model r)); ("prompt", JString (vllm_Prompt r))]
     ++ omitempty (vllm_MaxTokens r =? 0) "max_tokens" (JInt (vllm_MaxTokens r))
     ++ omitempty (Qeq_bool (vllm_Temperature r) 0) "temperature"
          (JNumber (vllm_Temperature r))
     ++ omitempty (bool_decide (vllm_Stop r = [])) "stop"
          (JArray (JString <$> vllm_Stop r))).

Definition Marshal_LiteLLMChatMessage (m : LiteLLMChatMessage) : json :=
  JObject [("role", JString (Role m)); ("content", JString (Content m))].

Definition Marshal_LiteLLMChatRequest (r : LiteLLMChatRequest) : json :=
  JObject
    ([("model", JString (chat_Model r));
      ("messages", JArray (Marshal_LiteLLMChatMessage <$> chat_Messages r))]
     ++ omitempty (Qeq_bool (chat_Temperature r) 0) "temperature"
          (JNumber (chat_Temperature r))
     ++ omitempty (chat_MaxTokens r =? 0) "max_tokens" (JInt (chat_MaxTokens r))).

(** The value stored under [key] in a marshalled object. *)
Definition json_field (j : json) (key : string) : option json :=
  match j with
  | JObject fields => snd <$> List.find (fun kv => String.eqb (fst kv) key) fields
  | _ => None
  end.

Record Request : Type := {
  Method : string;
  URL : string;
  Header : gmap string string;
  Body : json
}.

Definition Header_Set (req : Request) (key value : string) : Request :=
  {| Method := Method req; URL := URL req;
     Header := <[key := value]> (Header req); Body := Body req |}.

Record Response : Type := { StatusCode : Z; RespBody : string }.

Definition StatusOK : Z := 200.

(** What a provider reaches outside the program: [net/http] and the decoder
    of [encoding/json]. *)
Class Backend : Type := {
  (** [http.NewRequest(method, url, body)] *)
  http_NewRequest : string -> string -> json -> result Request;
  (** [(&http.Client{}).Do(req)] *)
  http_Do : Request -> result Response;
  (** [json.NewDecoder(resp.Body).Decode(&v)] at the two response types *)
  Decode_VLLMResponse : string -> result VLLMResponse;
  Decode_LiteLLMChatResponse : string -> result LiteLLMChatResponse
}.

(** ** The translation providers ([src/server/provider.go]) *)

(** [Translate] returns [Some r] for Go's [(string, error)] pair [r], and
    [None] when the call panics. *)
Class TranslationProvider (T : Type) : Type := {
  Translate : T -> string -> string -> string -> option (result string);
  GetName : T -> string
}.

Record VLLMProvider : Type := {
  vllm_apiURL : string;
  vllm_apiKey : string;
  vllm_model : string
}.

Definition NewVLLMProvider (apiURL apiKey model : string) : VLLMProvider :=
  {| vllm_apiURL := apiURL; vllm_apiKey := apiKey; vllm_model := model |}.

Definition createTranslationPrompt (p : VLLMProvider)
    (text sourceLang targetLang : string) : string :=
  let sourceLanguageName := getLanguageName sourceLang in
  let targetLanguageName := getLanguageName targetLang in
  let targetClarification := getLanguageClarification targetLang in
  let sourceClarification :=
    if negb (String.eqb sourceLang "auto")
    then getLanguageClarification sourceLang else "" in
  if String.eqb sourceLang "auto"
  then "Translate to " +:+ targetLanguageName +:+ targetClarification
       +:+ ". Reply with ONLY the translation." +:+ LF +:+ LF +:+ text
  else "Translate from " +:+ sourceLanguageName +:+ sourceClarification
       +:+ " to " +:+ targetLanguageName +:+ targetClarification
       +:+ ". Reply with ONLY the translation." +:+ LF +:+ LF +:+ text.

(** The local [reqBody] of [VLLMProvider.Translate]. *)
Definition VLLM_reqBody (p : VLLMProvider) (prompt : string) : VLLMRequest :=
  {| vllm_Model := vllm_model p;
     vllm_Prompt := prompt;
     vllm_MaxTokens := 512;
     vllm_Temperature := (1 # 10)%Q;
     vllm_Stop :=
       [ LF +:+ LF;
         LF +:+ "Note:";
         LF +:+ "Explanation:";
         LF +:+ "Translation:";
         LF +:+ LF +:+ "Input:";
         "[/INST]" ] |}.

(** The request as it stands when it is handed to [client.Do]. *)
Definition authorize (apiKey : string) (req : Request) : Request :=
  let req := Header_Set req "Content-Type" "application/json" in
  if negb (String.eqb apiKey "")
  then Header_Set req "Authorization" ("Bearer " +:+ apiKey)
  else req.

Definition VLLM_request `{Backend} (p : VLLMProvider)
    (text sourceLang targetLang : string) : result Request :=
  let prompt := createTranslationPrompt p text sourceLang targetLang in
  let reqBody := VLLM_reqBody p prompt in
  let jsonData := Marshal_VLLMRequest reqBody in
  match http_NewRequest "POST" (vllm_apiURL p) jsonData with
  | Err err => Err ("failed to create request: " +:+ err)
  | Ok req => Ok (authorize (vllm_apiKey p) req)
  end.

Definition VLLM_Translate `{Backend} (p : VLLMProvider)
    (text sourceLang targetLang : string) : option (result string) :=
  match VLLM_request p text sourceLang targetLang with
  | Err err => Some (Err err)
  | Ok req =>
    match http_Do req with
    | Err err => Some (Err ("vLLM API request failed: " +:+ err))
    | Ok resp =>
      if negb (StatusCode resp =? StatusOK)
      then Some (Err ("vLLM API error (status " +:+ pretty (StatusCode resp)
                      +:+ "): " +:+ RespBody resp))
      else
        match Decode_VLLMResponse (RespBody resp) with
        | Err err => Some (Err ("failed to decode response: " +:+ err))
        | Ok vllmResp =>
          if (length (vllm_Choices vllmResp) =? 0)%nat
          then Some (Err "no translation returned from vLLM")
          else
            choice ← vllm_Choices vllmResp !! 0%nat;
            translatedText ← cleanTranslationOutput (Text choice);
            Some (Ok translatedText)
        end
    end
  end.

#[export] Instance VLLMProvider_TranslationProvider `{Backend}
  : TranslationProvider VLLMProvider :=
  {| Translate := VLLM_Translate; GetName := fun _ => "vllm" |}.

Record LiteLLMProvider : Type := {
  lite_apiURL : string;
  lite_apiKey : string;
  lite_model : string
}.

Definition NewLiteLLMProvider (apiURL apiKey model : string) : LiteLLMProvider :=
  {| lite_apiURL := apiURL; lite_apiKey := apiKey; lite_model := model |}.

(** The local [userPrompt] of [LiteLLMProvider.Translate]. *)
Definition userPrompt (text sourceLang targetLang : string) : string :=
  let sourceLanguageName := getLanguageName sourceLang in
  let targetLanguageName := getLanguageName targetLang in
  let targetClarification := getLanguageClarification targetLang in
  let sourceClarification :=
    if negb (String.eqb sourceLang "auto")
    then getLanguageClarification sourceLang else "" in
  if String.eqb sourceLang "auto"
  then "Translate to " +:+ targetLanguageName +:+ targetClarification
       +:+ ":" +:+ LF +:+ LF +:+ text
  else "Translate from " +:+ sourceLanguageName +:+ sourceClarification
       +:+ " to " +:+ targetLanguageName +:+ targetClarification
       +:+ ":" +:+ LF +:+ LF +:+ text.

(** The local [reqBody] of [LiteLLMProvider.Translate]. *)
Definition LiteLLM_reqBody (p : LiteLLMProvider) (userPrompt : string)
  : LiteLLMChatRequest :=
  {| chat_Model := lite_model p;
     chat_Messages :=
       [ {| Role := "system";
            Content := "You are a translation system. Output ONLY the translated text without any explanations, notes, or additional commentary." |};
         {| Role := "user"; Content := userPrompt |} ];
     chat_Temperature := (3 # 10)%Q;
     chat_MaxTokens := 2048 |}.

Definition LiteLLM_request `{Backend} (p : LiteLLMProvider)
    (text sourceLang targetLang : string) : result Request :=
  let reqBody := LiteLLM_reqBody p (userPrompt text sourceLang targetLang) in
  let jsonData := Marshal_LiteLLMChatRequest reqBody in
  match http_NewRequest "POST" (lite_apiURL p) jsonData with
  | Err err => Err ("failed to create request: " +:+ err)
  | Ok req => Ok (authorize (lite_apiKey p) req)
  end.

Definition LiteLLM_Translate `{Backend} (p : LiteLLMProvider)
    (text sourceLang targetLang : string) : option (result string) :=
  match LiteLLM_request p text sourceLang targetLang with
  | Err err => Some (Err err)
  | Ok req =>
    match http_Do req with
    | Err err => Some (Err ("LiteLLM API request failed: " +:+ err))
    | Ok resp =>
      if negb (StatusCode resp =? StatusOK)
      then Some (Err ("LiteLLM API error (status " +:+ pretty (StatusCode resp)
                      +:+ "): " +:+ RespBody resp))
      else
        match Decode_LiteLLMChatResponse (RespBody resp) with
        | Err err => Some (Err ("failed to decode response: " +:+ err))
        | Ok litellmResp =>
          if (length (chat_Choices litellmResp) =? 0)%nat
          then Some (Err "no translation returned from LiteLLM")
          else
            choice ← chat_Choices litellmResp !! 0%nat;
            translatedText ← cleanTranslationOutput (Content (Message_ choice));
            Some (Ok translatedText)
        end
    end
  end.

#[export] Instance LiteLLMProvider_TranslationProvider `{Backend}
  : TranslationProvider LiteLLMProvider :=
  {| Translate := LiteLLM_Translate; GetName := fun _ => "litellm" |}.

(** ** The message hook *)

Record SlackAttachment : Type := {
  att_Text : string;
  att_Pretext : string;
  att_Color : string
}.

(** The values the plugin stores in, or only tests for in, [Post.Props]
    (a [map[string]interface{}]). *)
Inductive PropValue : Type :=
| PropBool (b : bool)
| PropString (s : string)
| PropAttachments (l : list SlackAttachment)
| PropOther (raw : string).

(** [model.Post]; [Props] is [None] for a nil map. *)
Record Post : Type := {
  Id : string;
  ChannelId : string;
  UserId : string;
  RootId : string;
  Message : string;
  Type_ : string;
  Props : option (gmap string PropValue)
}.

(** [Post.IsSystemMessage] of the Mattermost [model] package: the post type
    starts with the system-message prefix. *)
Definition PostSystemMessagePrefix : string := "system_".

Definition IsSystemMessage (o : Post) : bool :=
  (strings.len PostSystemMessagePrefix <=? strings.len (Type_ o))%nat
  && String.eqb (strings.take (strings.len PostSystemMessagePrefix) (Type_ o))
       PostSystemMessagePrefix.

Record User : Type := { IsBot : bool }.

(** Modelled from the spec: the preference record [UserInfo], whose
    declaration is not among the sources: the user, the opt-in flag and the
    two language codes, under the field names the hook reads. *)
Record UserInfo : Type := {
  UserID : string;
  Activated : bool;
  SourceLanguage : string;
  TargetLanguage : string
}.

(** Modelled from the spec: the configured bot identity, the two fields of
    the plugin's [configuration] the hook reads; its declaration is not among
    the sources. *)
Record configuration : Type := {
  BotUsername : string;
  BotIconURL : string
}.

(** A value of the interface type [TranslationProvider]. *)
Record provider : Type := Provider {
  provider_type : Type;
  provider_methods : TranslationProvider provider_type;
  provider_value : provider_type
}.
Arguments Provider {provider_type provider_methods} provider_value.

Definition provider_Translate (pr : provider)
  : string -> string -> string -> option (result string) :=
  @Translate _ (provider_methods pr) (provider_value pr).

(** The plugin as the hook sees it: its configuration, the host API and the
    plugin's own helpers [getUserInfo] and [getTranslationProvider]. *)
Record Plugin : Type := {
  getConfiguration : configuration;
  API_GetUser : string -> result User;
  API_CreatePost : Post -> result Post;
  getUserInfo : string -> result UserInfo;
  getTranslationProvider : result provider
}.

(** The calls a run of the hook makes on its collaborators, in order. *)
Inductive event : Type :=
| EvGetUser (userId : string)
| EvGetUserInfo (userId : string)
| EvGetTranslationProvider
| EvTranslate (text sourceLang targetLang : string)
| EvLogError (msg key value : string)
| EvCreatePost (post : Post).

(** How a step of the hook ends: it goes on with a value, the hook has
    returned, or the hook has panicked. *)
Inductive flow (A : Type) : Type :=
| Next (a : A)
| Returned
| Panicked.
Arguments Next {A} a.
Arguments Returned {A}.
Arguments Panicked {A}.

Definition Hook (A : Type) : Type := (list event * flow A)%type.

Definition hook_ret {A} (a : A) : Hook A := ([], Next a).

Definition hook_bind {A B} (m : Hook A) (k : A -> Hook B) : Hook B :=
  match m with
  | (t, Next a) => let '(t', r) := k a in (t ++ t', r)
  | (t, Returned) => (t, Returned)
  | (t, Panicked) => (t, Panicked)
  end.

#[export] Instance Hook_ret : MRet Hook := @hook_ret.
#[export] Instance Hook_bind : MBind Hook := fun A B k m => hook_bind m k.

Definition emit (e : event) : Hook unit := ([e], Next tt).
Definition call {A} (e : event) (a : A) : Hook A := ([e], Next a).
Definition return_ {A} : Hook A := ([], Returned).
Definition panic {A} : Hook A := ([], Panicked).
Definition when (b : bool) (m : Hook unit) : Hook unit :=
  if b then m else hook_ret tt.

Definition LogError (msg key value : string) : Hook unit :=
  emit (EvLogError msg key value).

(** The posts handed to [p.API.CreatePost] during a run. *)
Definition created {A} (h : Hook A) : list Post :=
  omap (fun e => match e with EvCreatePost post => Some post | _ => None end)
       (fst h).

(** The errors logged during a run. *)
Definition logged {A} (h : Hook A) : list event :=
  List.filter (fun e => match e with EvLogError _ _ _ => true | _ => false end)
    (fst h).

(** The collaborators the hook calls; each call is recorded. *)
Definition GetUser (p : Plugin) (userId : string) : Hook (result User) :=
  call (EvGetUser userId) (API_GetUser p userId).

Definition GetUserInfo (p : Plugin) (userId : string) : Hook (result UserInfo) :=
  call (EvGetUserInfo userId) (getUserInfo p userId).

Definition GetTranslationProvider (p : Plugin) : Hook (result provider) :=
  call EvGetTranslationProvider (getTranslationProvider p).

Definition CallTranslate (pr : provider) (text sourceLang targetLang : string)
  : Hook (result string) :=
  emit (EvTranslate text sourceLang targetLang);;
  match provider_Translate pr text sourceLang targetLang with
  | Some r => hook_ret r
  | None => panic
  end.

Definition CreatePost (p : Plugin) (post : Post) : Hook (result Post) :=
  call (EvCreatePost post) (API_CreatePost p post).

(** [src/server/activate_hooks.go]: the plain-text threaded reply.  The
    revision [src/unnamed/part_001] differs from it only in the names of its
    error variables and in the type of the context parameter. *)
Module ActivateHooks.

Definition MessageHasBeenPosted (p : Plugin) (post : Post) : Hook unit :=
  let configuration := getConfiguration p in
  when (IsSystemMessage post) return_;;
  r ← GetUser p (UserId post);
  user ← match r with
         | Err err => LogError "Failed to get user" "error" err;; return_
         | Ok user => hook_ret user
         end;
  when (IsBot user) return_;;
  r ← GetUserInfo p (UserId post);
  userInfo ← match r with
             | Err apiErr => return_
             | Ok userInfo => hook_ret userInfo
             end;
  when (negb (Activated userInfo)) return_;;
  r ← GetTranslationProvider p;
  provider ← match r with
             | Err providerErr =>
                 LogError "Failed to get translation provider" "error"
                   providerErr;;
                 return_
             | Ok provider => hook_ret provider
             end;
  r ← CallTranslate provider (Message post) (SourceLanguage userInfo)
        (TargetLanguage userInfo);
  translatedText ← match r with
                   | Err translateErr =>
                       LogError "Failed to translate message" "error"
                         translateErr;;
                       return_
                   | Ok translatedText => hook_ret translatedText
                   end;
  when (String.eqb (strings.TrimSpace translatedText)
          (strings.TrimSpace (Message post))) return_;;
  let sourceLangDisplay :=
    if String.eqb (SourceLanguage userInfo) "auto"
    then "detected" else SourceLanguage userInfo in
  let botMessage :=
    "**[" +:+ sourceLangDisplay +:+ " → " +:+ TargetLanguage userInfo
    +:+ "]**" +:+ LF +:+ translatedText in
  let botUsername :=
    if String.eqb (BotUsername configuration) ""
    then "autotranslate-bot" else BotUsername configuration in
  let translatedPost :=
    {| Id := ""; Type_ := "";
       ChannelId := ChannelId post;
       UserId := UserId post;
       RootId := Id post;
       Message := botMessage;
       Props := Some (list_to_map
         [ ("from_plugin", PropBool true);
           ("override_username", PropString botUsername);
           ("override_icon_url", PropString (BotIconURL configuration));
           ("disable_group_highlight", PropBool true) ]) |} in
  r ← CreatePost p translatedPost;
  match r with
  | Err err =>
      LogError "Failed to post translated message" "error" err;; return_
  | Ok _ => hook_ret tt
  end.

End ActivateHooks.

(** [src/unnamed/part_000]: the revision with the loop guard and the
    attachment-styled reply. *)
Module AttachmentHooks.

(** [post.Props != nil] and the key [from_plugin] exists in it. *)
Definition fromPlugin (post : Post) : bool :=
  match Props post with
  | Some props => bool_decide (is_Some (props !! "from_plugin"))
  | None => false
  end.

Definition MessageHasBeenPosted (p : Plugin) (post : Post) : Hook unit :=
  let configuration := getConfiguration p in
  when (IsSystemMessage post) return_;;
  when (fromPlugin post) return_;;
  r ← GetUser p (UserId post);
  user ← match r with
         | Err err => LogError "Failed to get user" "error" err;; return_
         | Ok user => hook_ret user
         end;
  when (IsBot user) return_;;
  r ← GetUserInfo p (UserId post);
  userInfo ← match r with
             | Err apiErr => return_
             | Ok userInfo => hook_ret userInfo
             end;
  when (negb (Activated userInfo)) return_;;
  r ← GetTranslationProvider p;
  provider ← match r with
             | Err providerErr =>
                 LogError "Failed to get translation provider" "error"
                   providerErr;;
                 return_
             | Ok provider => hook_ret provider
             end;
  r ← CallTranslate provider (Message post) (SourceLanguage userInfo)
        (TargetLanguage userInfo);
  translatedText ← match r with
                   | Err translateErr =>
                       LogError "Failed to translate message" "error"
                         translateErr;;
                       return_
                   | Ok translatedText => hook_ret translatedText
                   end;
  when (String.eqb (strings.TrimSpace translatedText)
          (strings.TrimSpace (Message post))) return_;;
  let sourceLangDisplay :=
    if String.eqb (SourceLanguage userInfo) "auto"
    then "detected" else SourceLanguage userInfo in
  let botUsername :=
    if String.eqb (BotUsername configuration) ""
    then "autotranslate-bot" else BotUsername configuration in
  let translatedPost :=
    {| Id := ""; Type_ := "";
       ChannelId := ChannelId post;
       UserId := UserId post;
       RootId := RootId post;
       Message := "";
       Props := Some (list_to_map
         [ ("from_plugin", PropBool true);
           ("override_username", PropString botUsername);
           ("override_icon_url", PropString (BotIconURL configuration));
           ("disable_group_highlight", PropBool true);
           ("attachments", PropAttachments
              [ {| att_Text := translatedText;
                   att_Pretext := "🌐 **Translation** [" +:+ sourceLangDisplay
                                  +:+ " → " +:+ TargetLanguage userInfo +:+ "]";
                   att_Color := "#3AA3E3" |} ]) ]) |} in
  r ← CreatePost p translatedPost;
  match r with
  | Err err =>
      LogError "Failed to post translated message" "error" err;; return_
  | Ok _ => hook_ret tt
  end.

End AttachmentHooks.

(** ** The hook in two steps

    Both revisions run the same checks from the user lookup to the
    same-language check, then compose one post and hand it to [CreatePost].
    The definitions below name these two steps and the composed post; the
    hooks above are shown to be their sequence. *)

Definition translateFor (p : Plugin) (post : Post) : Hook (UserInfo * string) :=
  r ← GetUser p (UserId post);
  user ← match r with
         | Err err => LogError "Failed to get user" "error" err;; return_
         | Ok user => hook_ret user
         end;
  when (IsBot user) return_;;
  r ← GetUserInfo p (UserId post);
  userInfo ← match r with
             | Err apiErr => return_
             | Ok userInfo => hook_ret userInfo
             end;
  when (negb (Activated userInfo)) return_;;
  r ← GetTranslationProvider p;
  provider ← match r with
             | Err providerErr =>
                 LogError "Failed to get translation provider" "error"
                   providerErr;;
                 return_
             | Ok provider => hook_ret provider
             end;
  r ← CallTranslate provider (Message post) (SourceLanguage userInfo)
        (TargetLanguage userInfo);
  translatedText ← match r with
                   | Err translateErr =>
                       LogError "Failed to translate message" "error"
                         translateErr;;
                       return_
                   | Ok translatedText => hook_ret translatedText
                   end;
  when (String.eqb (strings.TrimSpace translatedText)
          (strings.TrimSpace (Message post))) return_;;
  hook_ret (userInfo, translatedText).

Definition postTranslation (p : Plugin) (translatedPost : Post) : Hook unit :=
  r ← CreatePost p translatedPost;
  match r with
  | Err err =>
      LogError "Failed to post translated message" "error" err;; return_
  | Ok _ => hook_ret tt
  end.

Definition sourceLangDisplay (userInfo : UserInfo) : string :=
  if String.eqb (SourceLanguage userInfo) "auto"
  then "detected" else SourceLanguage userInfo.

Definition botUsername (configuration : configuration) : string :=
  if String.eqb (BotUsername configuration) ""
  then "autotranslate-bot" else BotUsername configuration.

Definition plainPost (configuration : configuration) (post : Post)
    (userInfo : UserInfo) (translatedText : string) : Post :=
  {| Id := ""; Type_ := "";
     ChannelId := ChannelId post;
     UserId := UserId post;
     RootId := Id post;
     Message := "**[" +:+ sourceLangDisplay userInfo +:+ " → "
                +:+ TargetLanguage userInfo +:+ "]**" +:+ LF +:+ translatedText;
     Props := Some (list_to_map
       [ ("from_plugin", PropBool true);
         ("override_username", PropString (botUsername configuration));
         ("override_icon_url", PropString (BotIconURL configuration));
         ("disable_group_highlight", PropBool true) ]) |}.

Definition attachmentPost (configuration : configuration) (post : Post)
    (userInfo : UserInfo) (translatedText : string) : Post :=
  {| Id := ""; Type_ := "";
     ChannelId := ChannelId post;
     UserId := UserId post;
     RootId := RootId post;
     Message := "";
     Props := Some (list_to_map
       [ ("from_plugin", PropBool true);
         ("override_username", PropString (botUsername configuration));
         ("override_icon_url", PropString (BotIconURL configuration));
         ("disable_group_highlight", PropBool true);
         ("attachments", PropAttachments
            [ {| att_Text := translatedText;
                 att_Pretext := "🌐 **Translation** [" +:+ sourceLangDisplay userInfo
                                +:+ " → " +:+ TargetLanguage userInfo +:+ "]";
                 att_Color := "#3AA3E3" |} ]) ]) |}.

(** The gate finds an opted-in person behind [post]: the user resolves and
    is no bot, the preferences [userInfo] exist and are activated, and the
    provider [pr] resolves. *)
Definition eligible (p : Plugin) (post : Post) (userInfo : UserInfo)
    (pr : provider) : Prop :=
  ∃ user, API_GetUser p (UserId post) = Ok user ∧ IsBot user = false
    ∧ getUserInfo p (UserId post) = Ok userInfo ∧ Activated userInfo = true
    ∧ getTranslationProvider p = Ok pr.


(** The marker is set on [post]. *)
Definition marked (post : Post) : Prop :=
  ∃ props, Props post = Some props ∧ props !! "from_plugin" = Some (PropBool true).

(** ** The HTTP API ([src/server/api.go]) *)

(** The struct [TranslatedMessage], with the fields the composite literal in
    [getGo] fills; its declaration is not among the sources. *)
Record TranslatedMessage : Type := {
  tm_ID : string;
  tm_PostID : string;
  tm_SourceLanguage : string;
  tm_SourceText : string;
  tm_TargetLanguage : string;
  tm_TranslatedText : string;
  tm_UpdateAt : Z
}.

Record APIErrorResponse : Type := {
  api_ID : string;
  api_Message : string;
  api_StatusCode : Z
}.

(** The part of [*http.Request] the handlers read.  [Header.Get] and
    [URL.Query().Get] yield the empty string for a key that is absent. *)
Record HTTPRequest : Type := {
  Path : string;
  ReqHeader : gmap string string;
  Query : gmap string string;
  ReqBody : string
}.

Definition Header_Get (r : HTTPRequest) (key : string) : string :=
  default "" (ReqHeader r !! key).

Definition Query_Get (r : HTTPRequest) (key : string) : string :=
  default "" (Query r !! key).

(** The plugin as the HTTP handlers see it: the plugin of the hook, and the
    collaborators only the handlers use.  [API_GetPost] yields the post with
    its [UpdateAt]; [Decode_UserInfo] is the value of the pointer [info]
    after [json.NewDecoder(r.Body).Decode(&info)], [None] for nil (the
    decoder's error is dropped by the handler). *)
Record Server : Type := {
  plugin : Plugin;
  IsValid : option error;
  API_GetPost : string -> result (Post * Z);
  Decode_UserInfo : string -> option UserInfo;
  UserInfo_IsValid : UserInfo -> option error;
  setUserInfo : UserInfo -> option error
}.

(** What is marshalled into a response body. *)
Inductive payload : Type :=
| JTranslatedMessage (m : TranslatedMessage)
| JUserInfo (info : UserInfo)
| JAPIError (e : APIErrorResponse).

(** The calls a handler makes on the response writer and on its
    collaborators, in order. *)
Inductive hevent : Type :=
| HvHeaderSet (key value : string)
| HvWriteHeader (code : Z)
| HvWrite (body : payload)
| HvError (msg : string) (code : Z)
| HvNotFound
| HvIsValid
| HvGetPost (postId : string)
| HvGetTranslationProvider
| HvTranslate (text sourceLang targetLang : string)
| HvGetUserInfo (userId : string)
| HvDecode (body : string)
| HvInfoIsValid (info : UserInfo)
| HvSetUserInfo (info : UserInfo).

Definition Handler (A : Type) : Type := (list hevent * flow A)%type.

Definition handler_ret {A} (a : A) : Handler A := ([], Next a).

Definition handler_bind {A B} (m : Handler A) (k : A -> Handler B) : Handler B :=
  match m with
  | (t, Next a) => let '(t', r) := k a in (t ++ t', r)
  | (t, Returned) => (t, Returned)
  | (t, Panicked) => (t, Panicked)
  end.

#[export] Instance Handler_ret : MRet Handler := @handler_ret.
#[export] Instance Handler_bind : MBind Handler :=
  fun A B k m => handler_bind m k.

Definition hcall {A} (e : hevent) (a : A) : Handler A := ([e], Next a).
Definition hdo (e : hevent) : Handler unit := ([e], Next tt).
Definition hreturn {A} : Handler A := ([], Returned).
Definition hpanic {A} : Handler A := ([], Panicked).

(** [http.Error(w, msg, code)], [http.NotFound(w, r)] and [w.Write] of a
    marshalled value. *)
Definition http_Error (msg : string) (code : Z) : Handler unit :=
  hdo (HvError msg code).
Definition w_Write (body : payload) : Handler unit := hdo (HvWrite body).

Definition StatusBadRequest : Z := 400.
Definition StatusUnauthorized : Z := 401.
Definition StatusInternalServerError : Z := 500.

Definition writeAPIError (err : APIErrorResponse) : Handler unit :=
  let b := JAPIError err in
  hdo (HvWriteHeader (api_StatusCode err));;
  w_Write b.

Definition CallTranslateH (pr : provider) (text sourceLang targetLang : string)
  : Handler (result string) :=
  hdo (HvTranslate text sourceLang targetLang);;
  match provider_Translate pr text sourceLang targetLang with
  | Some r => handler_ret r
  | None => hpanic
  end.

Definition getGo (p : Server) (r : HTTPRequest) : Handler unit :=
  let userID := Header_Get r "Mattermost-User-ID" in
  if String.eqb userID ""
  then http_Error "Not authorized to translate post" StatusUnauthorized;;
       hreturn
  else
  let postID := Query_Get r "post_id" in
  if negb (strings.len postID =? 26)%nat
  then http_Error "Invalid parameter: post_id" StatusBadRequest;; hreturn
  else
  let source := Query_Get r "source" in
  if (strings.len source <? 2)%nat || (5 <? strings.len source)%nat
  then http_Error "Invalid parameter: source" StatusBadRequest;; hreturn
  else
  let target := Query_Get r "target" in
  if (strings.len target <? 2)%nat || (5 <? strings.len target)%nat
  then http_Error "Invalid parameter: target" StatusBadRequest;; hreturn
  else
  g ← hcall (HvGetPost postID) (API_GetPost p postID);
  '(post, updateAt) ← match g with
                      | Err err =>
                          http_Error "No post to translate" StatusBadRequest;;
                          hreturn
                      | Ok post => handler_ret post
                      end;
  g ← hcall HvGetTranslationProvider (getTranslationProvider (plugin p));
  provider ← match g with
             | Err providerErr =>
                 http_Error
                   ("Failed to initialize translation provider: "
                    +:+ providerErr)
                   StatusInternalServerError;;
                 hreturn
             | Ok provider => handler_ret provider
             end;
  g ← CallTranslateH provider (Message post) source target;
  translatedText ← match g with
                   | Err translateErr =>
                       http_Error ("Translation failed: " +:+ translateErr)
                         StatusBadRequest;;
                       hreturn
                   | Ok translatedText => handler_ret translatedText
                   end;
  let translated :=
    {| tm_ID := postID +:+ source +:+ target +:+ pretty updateAt;
       tm_PostID := postID;
       tm_SourceLanguage := source;
       tm_SourceText := Message post;
       tm_TargetLanguage := target;
       tm_TranslatedText := translatedText;
       tm_UpdateAt := updateAt |} in
  w_Write (JTranslatedMessage translated).

Definition getInfo (p : Server) (r : HTTPRequest) : Handler unit :=
  let userID := Header_Get r "Mattermost-User-ID" in
  if String.eqb userID "" then hreturn
  else
  g ← hcall (HvGetUserInfo userID) (getUserInfo (plugin p) userID);
  info ← match g with
         | Err err => hreturn
         | Ok info => handler_ret info
         end;
  w_Write (JUserInfo info).

Definition setInfo (p : Server) (r : HTTPRequest) : Handler unit :=
  let userID := Header_Get r "Mattermost-User-ID" in
  if String.eqb userID ""
  then http_Error "Not authorized to set info" StatusUnauthorized;; hreturn
  else
  d ← hcall (HvDecode (ReqBody r)) (Decode_UserInfo p (ReqBody r));
  info ← match d with
         | None =>
             http_Error "Invalid parameter: info" StatusBadRequest;; hreturn
         | Some info => handler_ret info
         end;
  v ← hcall (HvInfoIsValid info) (UserInfo_IsValid p info);
  match v with
  | Some err =>
      http_Error ("Invalid info: " +:+ err) StatusBadRequest;; hreturn
  | None => handler_ret tt
  end;;
  if negb (String.eqb (UserID info) userID)
  then http_Error "Invalid parameter: user mismatch" StatusBadRequest;;
       hreturn
  else
  e ← hcall (HvSetUserInfo info) (setUserInfo p info);
  match e with
  | Some err => http_Error "Failed to set info" StatusBadRequest;; hreturn
  | None => handler_ret tt
  end;;
  w_Write (JUserInfo info).


(** ** Test doubles *)

(** A provider stub with a fixed behaviour. *)
Record StubProvider : Type := {
  stub_Translate : string -> string -> string -> option (result string)
}.

#[export] Instance StubProvider_TranslationProvider
  : TranslationProvider StubProvider :=
  {| Translate := stub_Translate; GetName := fun _ => "stub" |}.

(** A plugin whose users are people who opted in with the preference
    [sourceLang] to [targetLang], with the provider [pr]; the host accepts
    every post. *)
Definition pluginWith (pr : result provider) (sourceLang targetLang : string)
  : Plugin :=
  {| getConfiguration := {| BotUsername := ""; BotIconURL := "" |};
     API_GetUser := fun _ => Ok {| IsBot := false |};
     API_CreatePost := fun post => Ok post;
     getUserInfo := fun userId =>
       Ok {| UserID := userId; Activated := true;
             SourceLanguage := sourceLang; TargetLanguage := targetLang |};
     getTranslationProvider := pr |}.

(** The same with a provider stub that answers [reply] to every request. *)
Definition stubPlugin (sourceLang targetLang reply : string) : Plugin :=
  pluginWith (Ok (Provider {| stub_Translate := fun _ _ _ => Some (Ok reply) |}))
    sourceLang targetLang.

Definition userPost (id rootId message : string) : Post :=
  {| Id := id; ChannelId := "town-square"; UserId := "user1"; RootId := rootId;
     Message := message; Type_ := ""; Props := None |}.

(** A root-level post of an opted-in person that carries the marker, as a
    plugin posting on that person's behalf produces it. *)
Definition markedPost : Post :=
  {| Id := "post1"; ChannelId := "town-square"; UserId := "user1";
     RootId := ""; Message := "안녕하세요"; Type_ := "";
     Props := Some (list_to_map [ ("from_plugin", PropBool true) ]) |}.

(** A backend that answers every request with status 200 and a body that
    decodes to an empty list of choices. *)
Definition emptyChoicesBackend : Backend :=
  {| http_NewRequest := fun method url body =>
       Ok {| Method := method; URL := url; Header := ∅; Body := body |};
     http_Do := fun _ => Ok {| StatusCode := 200; RespBody := "{}" |};
     Decode_VLLMResponse := fun _ => Ok {| vllm_Choices := [] |};
     Decode_LiteLLMChatResponse := fun _ => Ok {| chat_Choices := [] |} |}.

(** A backend whose completion holds one choice, a lone double quote. *)
Definition loneQuoteBackend : Backend :=
  {| http_NewRequest := fun method url body =>
       Ok {| Method := method; URL := url; Header := ∅; Body := body |};
     http_Do := fun _ => Ok {| StatusCode := 200; RespBody := "{}" |};
     Decode_VLLMResponse := fun _ => Ok {| vllm_Choices := [ {| Text := DQ |} ] |};
     Decode_LiteLLMChatResponse := fun _ => Ok {| chat_Choices := [] |} |}.

(** The backend [B] with [do] in the place of [client.Do]. *)
Definition withDo (B : Backend) (do : Request -> result Response) : Backend :=
  {| http_NewRequest := @http_NewRequest B;
     http_Do := do;
     Decode_VLLMResponse := @Decode_VLLMResponse B;
     Decode_LiteLLMChatResponse := @Decode_LiteLLMChatResponse B |}.

(** ** Notions and test doubles for the further properties *)

(** [y] is a contiguous part of [x]. *)
Definition within (y x : string) : Prop := ∃ a b, x = a +:+ y +:+ b.

(** A backend whose completion is a labelled greeting and whose chat answer
    is a padded one. *)
Definition helloBackend : Backend :=
  {| http_NewRequest := fun method url body =>
       Ok {| Method := method; URL := url; Header := ∅; Body := body |};
     http_Do := fun _ => Ok {| StatusCode := 200; RespBody := "{}" |};
     Decode_VLLMResponse := fun _ =>
       Ok {| vllm_Choices := [ {| Text := "Translation: Hello" |} ] |};
     Decode_LiteLLMChatResponse := fun _ =>
       Ok {| chat_Choices :=
               [ {| Message_ := {| Role := "assistant";
                                   Content := " Hello " |} |} ] |} |}.

(** A backend whose server answers every request with status 503. *)
Definition unavailableBackend : Backend :=
  {| http_NewRequest := fun method url body =>
       Ok {| Method := method; URL := url; Header := ∅; Body := body |};
     http_Do := fun _ => Ok {| StatusCode := 503; RespBody := "busy" |};
     Decode_VLLMResponse := fun _ => Ok {| vllm_Choices := [] |};
     Decode_LiteLLMChatResponse := fun _ => Ok {| chat_Choices := [] |} |}.

(** The ways the checks shared by the two revisions can end, each with the
    calls made up to that point. *)
Inductive gate (p : Plugin) (post : Post) : Hook (UserInfo * string) → Prop :=
| gate_no_user err :
    API_GetUser p (UserId post) = Err err →
    gate p post
      ([EvGetUser (UserId post); EvLogError "Failed to get user" "error" err],
       Returned)
| gate_bot user :
    API_GetUser p (UserId post) = Ok user → IsBot user = true →
    gate p post ([EvGetUser (UserId post)], Returned)
| gate_no_preference user :
    API_GetUser p (UserId post) = Ok user → IsBot user = false →
    (∀ userInfo, getUserInfo p (UserId post) = Ok userInfo →
                 Activated userInfo = false) →
    gate p post
      ([EvGetUser (UserId post); EvGetUserInfo (UserId post)], Returned)
| gate_no_provider user userInfo err :
    API_GetUser p (UserId post) = Ok user → IsBot user = false →
    getUserInfo p (UserId post) = Ok userInfo → Activated userInfo = true →
    getTranslationProvider p = Err err →
    gate p post
      ([EvGetUser (UserId post); EvGetUserInfo (UserId post);
        EvGetTranslationProvider;
        EvLogError "Failed to get translation provider" "error" err],
       Returned)
| gate_translated userInfo pr (r : option (result string)) :
    eligible p post userInfo pr →
    provider_Translate pr (Message post) (SourceLanguage userInfo)
      (TargetLanguage userInfo) = r →
    gate p post
      ([EvGetUser (UserId post); EvGetUserInfo (UserId post);
        EvGetTranslationProvider;
        EvTranslate (Message post) (SourceLanguage userInfo)
          (TargetLanguage userInfo)]
       ++ match r with
          | Some (Err err) =>
              [EvLogError "Failed to translate message" "error" err]
          | _ => []
          end,
       match r with
       | None => Panicked
       | Some (Err _) => Returned
       | Some (Ok translatedText) =>
           if String.eqb (strings.TrimSpace translatedText)
                (strings.TrimSpace (Message post))
           then Returned else Next (userInfo, translatedText)
       end).

(** A plugin none of whose users has stored a preference. *)
Definition noPreferencePlugin : Plugin :=
  {| getConfiguration := {| BotUsername := ""; BotIconURL := "" |};
     API_GetUser := fun _ => Ok {| IsBot := false |};
     API_CreatePost := fun post => Ok post;
     getUserInfo := fun _ => Err "no preference stored";
     getTranslationProvider :=
       Ok (Provider {| stub_Translate := fun _ _ _ => Some (Ok "Hello") |}) |}.

(** A plugin as [stubPlugin], on a host that rejects every post. *)
Definition rejectingPlugin : Plugin :=
  {| getConfiguration := {| BotUsername := ""; BotIconURL := "" |};
     API_GetUser := fun _ => Ok {| IsBot := false |};
     API_CreatePost := fun _ => Err "Invalid RootId parameter";
     getUserInfo := fun userId =>
       Ok {| UserID := userId; Activated := true;
             SourceLanguage := "ko"; TargetLanguage := "en" |};
     getTranslationProvider :=
       Ok (Provider {| stub_Translate := fun _ _ _ => Some (Ok "Hello") |}) |}.

(** No call in the trace reaches beyond the user lookup. *)
Definition stopsAtUser (e : event) : Prop :=
  match e with
  | EvGetUser _ | EvLogError _ _ _ => True
  | _ => False
  end.

(** No call in the trace reaches the provider or the host's [CreatePost]. *)
Definition beforeProvider (e : event) : Prop :=
  match e with
  | EvGetUser _ | EvGetUserInfo _ | EvLogError _ _ _ => True
  | _ => False
  end.

(** A response event: what the client gets to see. *)
Definition isResponse (e : hevent) : bool :=
  match e with
  | HvError _ _ | HvWrite _ | HvNotFound => true
  | _ => false
  end.

(** A server around [stubPlugin] whose only stored post is a Korean
    greeting, and which accepts every preference record. *)
Definition stubServer (configured : option error) : Server :=
  {| plugin := stubPlugin "ko" "en" "Hello";
     IsValid := configured;
     API_GetPost := fun postId =>
       Ok (userPost postId "" "안녕하세요", 1700000000000);
     Decode_UserInfo := fun body =>
       Some {| UserID := body; Activated := true; SourceLanguage := "ko";
               TargetLanguage := "en" |};
     UserInfo_IsValid := fun _ => None;
     setUserInfo := fun _ => None |}.

Definition goRequest : HTTPRequest :=
  {| Path := "/api/go";
     ReqHeader := {[ "Mattermost-User-ID" := "user1" ]};
     Query := list_to_map [ ("post_id", "abcdefghijklmnopqrstuvwxyz");
                            ("source", "ko"); ("target", "en") ];
     ReqBody := "" |}.

Definition setInfoRequest (userId body : string) : HTTPRequest :=
  {| Path := "/api/set_info";
     ReqHeader := {[ "Mattermost-User-ID" := userId ]};
     Query := ∅;
     ReqBody := body |}.

(** * Properties *)

(** ** Facts about the [strings] functions *)

Module strings_facts.
Import strings.

Lemma app_nil_l s : "" +:+ s = s.
Proof. reflexivity. Qed.

Lemma app_cons c s t : String c s +:+ t = String c (s +:+ t).
Proof. reflexivity. Qed.

Lemma app_nil_r s : s +:+ "" = s.
Proof. induction s as [|c s IH]; [done|]. by rewrite app_cons IH. Qed.

Lemma app_assoc a b c : (a +:+ b) +:+ c = a +:+ b +:+ c.
Proof. induction a as [|x a IH]; [done|]. by rewrite !app_cons IH. Qed.

Lemma len_app a b : len (a +:+ b) = (len a + len b)%nat.
Proof. induction a as [|x a IH]; [done|]. rewrite app_cons /=. lia. Qed.

Lemma take_drop n s : take n s +:+ drop n s = s.
Proof.
  revert s; induction n as [|n IH]; intros [|c s]; try done.
  by rewrite /= app_cons IH.
Qed.


Lemma drop_app_len a b : drop (len a) (a +:+ b) = b.
Proof. induction a as [|x a IH]; [done|]. by rewrite app_cons. Qed.

Lemma take_app_len a b : take (len a) (a +:+ b) = a.
Proof. induction a as [|x a IH]; [done|]. by rewrite app_cons /= IH. Qed.

Lemma prefix_app p r : String.prefix p (p +:+ r) = true.
Proof.
  induction p as [|c p IH]; [by destruct r|].
  rewrite app_cons /=. by destruct (ascii_dec c c).
Qed.

Lemma prefix_inv p s : String.prefix p s = true → ∃ r, s = p +:+ r.
Proof.
  revert s; induction p as [|c p IH]; intros s H.
  - by exists s.
  - destruct s as [|d s]; [done|]. simpl in H.
    destruct (ascii_dec c d) as [->|]; [|done].
    destruct (IH _ H) as [r ->]. by exists r.
Qed.

Lemma HasPrefix_spec s p : HasPrefix s p = true ↔ ∃ r, s = p +:+ r.
Proof.
  split; [apply prefix_inv|]. intros [r ->]. apply prefix_app.
Qed.

Lemma HasSuffix_spec s q : HasSuffix s q = true ↔ ∃ a, s = a +:+ q.
Proof.
  unfold HasSuffix. rewrite andb_true_iff Nat.leb_le String.eqb_eq. split.
  - intros [Hl Hd]. exists (take (len s - len q) s).
    pose proof (take_drop (len s - len q) s) as E. by rewrite Hd in E.
  - intros [a ->]. rewrite len_app. split; [lia|].
    replace (len a + len q - len q)%nat with (len a) by lia.
    apply drop_app_len.
Qed.

Lemma HasPrefix_app s b p : HasPrefix s p = true → HasPrefix (s +:+ b) p = true.
Proof.
  rewrite !HasPrefix_spec. intros [r ->]. exists (r +:+ b). apply app_assoc.
Qed.

(** *** Trimming *)

Lemma spaceEncodings_nonempty q : In q spaceEncodings → (0 < len q)%nat.
Proof.
  assert (forallb (fun q => 0 <? len q)%nat spaceEncodings = true) as H
    by reflexivity.
  rewrite forallb_forall in H. intros Hq. by apply Nat.ltb_lt, H.
Qed.

Lemma find_None {A} (f : A → bool) l :
  (∀ x, In x l → f x = false) → List.find f l = None.
Proof.
  induction l as [|x l IH]; [done|]. intros H. simpl.
  rewrite (H x); [by left|]. apply IH. intros y Hy. apply H. by right.
Qed.

Lemma leadingSpace_Some s q :
  leadingSpace s = Some q → (0 < len q)%nat ∧ ∃ r, s = q +:+ r.
Proof.
  intros [Hin Hp]%find_some. split; [by apply spaceEncodings_nonempty|].
  by apply HasPrefix_spec.
Qed.

Lemma trailingSpace_Some s q :
  trailingSpace s = Some q → (0 < len q)%nat ∧ ∃ a, s = a +:+ q.
Proof.
  intros [Hin Hp]%find_some. split; [by apply spaceEncodings_nonempty|].
  by apply HasSuffix_spec.
Qed.

Lemma leadingSpace_app_None s b :
  leadingSpace (s +:+ b) = None → leadingSpace s = None.
Proof.
  intros H. apply find_None. intros q Hq.
  destruct (HasPrefix s q) eqn:E; [|done].
  apply (HasPrefix_app _ b) in E.
  by rewrite (find_none _ _ H q Hq) in E.
Qed.

Lemma trimLeft_fixed k s : leadingSpace s = None → trimLeft k s = s.
Proof. intros H. destruct k; [done|]. by rewrite /= H. Qed.

Lemma trimRight_fixed k s : trailingSpace s = None → trimRight k s = s.
Proof. intros H. destruct k; [done|]. by rewrite /= H. Qed.

Lemma trimLeft_suffix k s : ∃ a, s = a +:+ trimLeft k s.
Proof.
  revert s; induction k as [|k IH]; intros s; [by exists ""|]. simpl.
  destruct (leadingSpace s) as [q|] eqn:E; [|by exists ""].
  apply leadingSpace_Some in E as [_ [r ->]]. rewrite drop_app_len.
  destruct (IH r) as [a Ha]. exists (q +:+ a). by rewrite app_assoc -Ha.
Qed.

Lemma trimRight_prefix k s : ∃ b, s = trimRight k s +:+ b.
Proof.
  revert s; induction k as [|k IH]; intros s.
  { exists "". by rewrite app_nil_r. }
  simpl. destruct (trailingSpace s) as [q|] eqn:E.
  2:{ exists "". by rewrite app_nil_r. }
  apply trailingSpace_Some in E as [_ [a ->]]. rewrite len_app.
  replace (len a + len q - len q)%nat with (len a) by lia.
  rewrite take_app_len. destruct (IH a) as [b Hb].
  exists (b +:+ q). by rewrite -app_assoc -Hb.
Qed.

Lemma trimLeft_done k s :
  (len s ≤ k)%nat → leadingSpace (trimLeft k s) = None.
Proof.
  revert s; induction k as [|k IH]; intros s Hk.
  - destruct s; [done|simpl in Hk; lia].
  - simpl. destruct (leadingSpace s) as [q|] eqn:E; [|done].
    apply leadingSpace_Some in E as [Hq [r ->]]. rewrite drop_app_len.
    apply IH. rewrite len_app in Hk. lia.
Qed.

Lemma trimRight_done k s :
  (len s ≤ k)%nat → trailingSpace (trimRight k s) = None.
Proof.
  revert s; induction k as [|k IH]; intros s Hk.
  - destruct s; [done|simpl in Hk; lia].
  - simpl. destruct (trailingSpace s) as [q|] eqn:E; [|done].
    apply trailingSpace_Some in E as [Hq [a ->]]. rewrite len_app in Hk |- *.
    replace (len a + len q - len q)%nat with (len a) by lia.
    rewrite take_app_len. apply IH. lia.
Qed.

(** [TrimSpace] leaves no space rune at either end. *)
Lemma TrimSpace_trimmed s :
  leadingSpace (TrimSpace s) = None ∧ trailingSpace (TrimSpace s) = None.
Proof.
  unfold TrimSpace. set (l := trimLeft (len s) s).
  split; [|by apply trimRight_done].
  destruct (trimRight_prefix (len l) l) as [b Hb].
  apply (leadingSpace_app_None _ b). rewrite -Hb. by apply trimLeft_done.
Qed.

Lemma TrimSpace_fixed s :
  leadingSpace s = None → trailingSpace s = None → TrimSpace s = s.
Proof.
  intros Hl Hr. unfold TrimSpace.
  rewrite (trimLeft_fixed _ _ Hl). by apply trimRight_fixed.
Qed.

Lemma TrimSpace_idempotent s : TrimSpace (TrimSpace s) = TrimSpace s.
Proof. by apply TrimSpace_fixed; apply TrimSpace_trimmed. Qed.

(** [TrimSpace s] is a slice of [s]. *)
Lemma TrimSpace_infix s : ∃ a b, s = a +:+ TrimSpace s +:+ b.
Proof.
  unfold TrimSpace. set (l := trimLeft (len s) s).
  destruct (trimLeft_suffix (len s) s) as [a Ha].
  destruct (trimRight_prefix (len l) l) as [b Hb].
  exists a, b. by rewrite -Hb.
Qed.

(** *** [Index] *)

Lemma Index_cons c s m :
  Index (String c s) m
  = if String.prefix m (String c s) then Some O else S <$> Index s m.
Proof. reflexivity. Qed.

Lemma Index_nil m : m ≠ "" → Index "" m = None.
Proof. by destruct m. Qed.

Lemma Index_app_None_r s b m : Index (s +:+ b) m = None → Index s m = None.
Proof.
  induction s as [|c s IH].
  - rewrite app_nil_l. destruct m as [|d m]; [by destruct b|done].
  - rewrite app_cons !Index_cons.
    destruct (String.prefix m (String c (s +:+ b))) eqn:E; [done|].
    destruct (String.prefix m (String c s)) eqn:E'.
    { apply (HasPrefix_app _ b) in E'. unfold HasPrefix in E'.
      by rewrite app_cons E in E'. }
    destruct (Index (s +:+ b) m); [done|]. by rewrite IH.
Qed.

Lemma Index_app_None_l a s m : Index (a +:+ s) m = None → Index s m = None.
Proof.
  induction a as [|c a IH]; [done|]. rewrite app_cons Index_cons.
  destruct (String.prefix m (String c (a +:+ s))); [done|].
  destruct (Index (a +:+ s) m); [done|]. auto.
Qed.

Lemma Index_le s m i : Index s m = Some i → (i ≤ len s)%nat.
Proof.
  revert i; induction s as [|c s IH]; intros i.
  - destruct m; [|done]. intros [= <-]. simpl; lia.
  - rewrite Index_cons.
    destruct (String.prefix m (String c s)); [intros [= <-]; simpl; lia|].
    destruct (Index s m) as [j|]; [|done]. intros [= <-].
    specialize (IH j eq_refl). simpl; lia.
Qed.

(** Nothing before the first instance of [m] holds an instance of [m]. *)
Lemma Index_take s m i :
  m ≠ "" → Index s m = Some i → Index (take i s) m = None.
Proof.
  intros Hm. revert i; induction s as [|c s IH]; intros i.
  - by rewrite Index_nil.
  - rewrite Index_cons. destruct (String.prefix m (String c s)) eqn:E.
    { intros [= <-]. by apply Index_nil. }
    destruct (Index s m) as [j|]; [|done]. intros [= <-].
    change (take (S j) (String c s)) with (String c (take j s)).
    rewrite Index_cons.
    destruct (String.prefix m (String c (take j s))) eqn:E'.
    { apply (HasPrefix_app _ (drop j s)) in E'. unfold HasPrefix in E'.
      by rewrite app_cons take_drop E in E'. }
    by rewrite (IH j eq_refl).
Qed.

End strings_facts.

(** ** The output sanitizer *)

Section sanitizer.
Import strings strings_facts.

Lemma slice_0 text i :
  (i ≤ len text)%nat → slice text 0 (Z.of_nat i) = Some (take i text).
Proof.
  intros Hi. unfold slice.
  replace (Z.of_nat i <=? Z.of_nat (len text)) with true
    by (symmetry; apply Z.leb_le; lia).
  replace (0 <=? Z.of_nat i) with true by (symmetry; apply Z.leb_le; lia).
  simpl. by rewrite Z.sub_0_r Nat2Z.id.
Qed.

(** Truncation never panics, keeps a prefix of the text and leaves no
    instance of the marker. *)
Lemma truncateAt_spec text m :
  m ≠ "" →
  ∃ t b, truncateAt text m = Some t ∧ text = t +:+ b ∧ Index t m = None.
Proof.
  intros Hm. unfold truncateAt. destruct (Index text m) as [idx|] eqn:E.
  - exists (take idx text), (drop idx text).
    rewrite slice_0; [by eapply Index_le|].
    split; [done|]. split; [by rewrite take_drop|by apply Index_take].
  - exists text, "". by rewrite app_nil_r.
Qed.

Lemma truncateAt_absent text m : Index text m = None → truncateAt text m = Some text.
Proof. intros H. by rewrite /truncateAt H. Qed.

Lemma noteMarker_nonempty : noteMarker ≠ "".
Proof. done. Qed.

Lemma explanationMarker_nonempty : explanationMarker ≠ "".
Proof. done. Qed.

(** What every result of the sanitizer satisfies: it is trimmed and holds
    neither marker. *)
Lemma clean_output_trimmed x y :
  cleanTranslationOutput x = Some y →
  TrimSpace y = y ∧ Index y noteMarker = None
  ∧ Index y explanationMarker = None.
Proof.
  unfold cleanTranslationOutput.
  set (t1 := foldl stripPrefix (TrimSpace x) unwantedPrefixes).
  destruct (if isQuoted t1 then _ else _) as [t2|]; [|done]. simpl.
  destruct (truncateAt_spec t2 _ noteMarker_nonempty)
    as (t3 & b3 & -> & _ & Hn3). simpl.
  destruct (truncateAt_spec t3 _ explanationMarker_nonempty)
    as (t4 & b4 & -> & E4 & He4). simpl.
  intros [= <-]. split; [apply TrimSpace_idempotent|].
  destruct (TrimSpace_infix t4) as (a & b & Ht4).
  rewrite E4 in Hn3. apply Index_app_None_r in Hn3.
  rewrite Ht4 in Hn3 He4.
  split; eapply Index_app_None_r, Index_app_None_l; eauto.
Qed.

Lemma strip_no_prefix text l :
  Forall (fun p => HasPrefix text p = false) l → foldl stripPrefix text l = text.
Proof.
  induction 1 as [|p l Hp _ IH]; [done|]. by rewrite /= /stripPrefix Hp.
Qed.







Lemma len_take_le n s : (len (take n s) ≤ len s)%nat.
Proof.
  revert s; induction n as [|n IH]; intros [|c s]; simpl; try lia.
  specialize (IH s). lia.
Qed.

Lemma slice_inner text u :
  slice text 1 (Z.of_nat (len text) - 1) = Some u →
  (2 ≤ len text)%nat ∧ (len u < len text)%nat.
Proof.
  unfold slice. destruct (_ && _) eqn:E; [|done]. intros [= <-].
  apply andb_true_iff in E as [[_ E%Z.leb_le]%andb_true_iff _].
  split; [lia|].
  destruct text as [|c r]; [simpl in E; lia|].
  eapply Nat.le_lt_trans; [apply len_take_le|]. simpl. lia.
Qed.

Lemma slice_inner_panics text :
  slice text 1 (Z.of_nat (len text) - 1) = None ↔ (len text < 2)%nat.
Proof.
  unfold slice. destruct (_ && _) eqn:E.
  - apply andb_true_iff in E as [[_ E%Z.leb_le]%andb_true_iff _].
    split; [done|lia].
  - split; [intros _|done].
    destruct (decide (len text < 2)%nat) as [|Hn]; [done|].
    rewrite andb_false_iff andb_false_iff !Z.leb_gt in E. lia.
Qed.


(** The sanitizer panics exactly when the text left after the labels is a
    lone quote character. *)
Lemma clean_panics_iff x :
  cleanTranslationOutput x = None ↔
  let t := foldl stripPrefix (TrimSpace x) unwantedPrefixes in
  isQuoted t = true ∧ (len t < 2)%nat.
Proof.
  unfold cleanTranslationOutput.
  set (t1 := foldl stripPrefix (TrimSpace x) unwantedPrefixes). simpl.
  assert (∀ t2, (t3 ← truncateAt t2 noteMarker;
                 t4 ← truncateAt t3 explanationMarker;
                 Some (TrimSpace t4)) ≠ None) as Hrest.
  { intros t2.
    destruct (truncateAt_spec t2 _ noteMarker_nonempty)
      as (t3 & b3 & -> & _ & _). simpl.
    by destruct (truncateAt_spec t3 _ explanationMarker_nonempty)
      as (t4 & b4 & -> & _ & _). }
  destruct (isQuoted t1).
  - destruct (slice t1 1 _) as [u|] eqn:Eu; simpl.
    + apply slice_inner in Eu as [Hu _]. split; [by intros ?%Hrest|lia].
    + apply slice_inner_panics in Eu. done.
  - simpl. split; [by intros ?%Hrest|by intros []].
Qed.

End sanitizer.

(** ** The message hook *)

Section hook.
Import strings strings_facts.

Lemma created_bind {A B} (m : Hook A) (k : A → Hook B) :
  created (m ≫= k)
  = created m ++ match snd m with Next a => created (k a) | _ => [] end.
Proof.
  destruct m as [t [a| |]]; rewrite /created /mbind /Hook_bind /=;
    [|by rewrite List.app_nil_r..].
  destruct (k a) as [t' r]. by rewrite /= omap_app.
Qed.

Lemma translateFor_run p post userInfo pr translatedText :
  eligible p post userInfo pr →
  provider_Translate pr (Message post) (SourceLanguage userInfo)
    (TargetLanguage userInfo) = Some (Ok translatedText) →
  translateFor p post
  = ([EvGetUser (UserId post); EvGetUserInfo (UserId post);
      EvGetTranslationProvider;
      EvTranslate (Message post) (SourceLanguage userInfo)
        (TargetLanguage userInfo)],
     if String.eqb (TrimSpace translatedText) (TrimSpace (Message post))
     then Returned else Next (userInfo, translatedText)).
Proof.
  intros (user & Hu & Hb & Hi & Ha & Hp) Ht.
  rewrite /translateFor /GetUser /GetUserInfo /GetTranslationProvider
    /CallTranslate Hu Hi Hp /= Hb Ha /= Ht /=.
  by destruct (String.eqb _ _).
Qed.

(** The gate itself never posts. *)
Lemma translateFor_created p post : created (translateFor p post) = [].
Proof.
  rewrite /translateFor /GetUser /GetUserInfo /GetTranslationProvider
    /CallTranslate.
  destruct (API_GetUser p _) as [[[]]|]; try done.
  destruct (getUserInfo p _) as [[? [] ? ?]|]; try done.
  destruct (getTranslationProvider p) as [pr|]; try done.
  rewrite /created /=.
  destruct (provider_Translate pr _ _ _) as [[t|]|]; try done.
  simpl. by destruct (String.eqb _ _).
Qed.

Lemma postTranslation_created p translatedPost :
  created (postTranslation p translatedPost) = [translatedPost].
Proof.
  rewrite /postTranslation /CreatePost /created /=.
  by destruct (API_CreatePost p _).
Qed.

Lemma when_false_bind {B} (k : () → Hook B) :
  (when false return_ ≫= k) = k ().
Proof. rewrite /when /mbind /Hook_bind /=. by destruct (k ()). Qed.

Lemma plain_steps p post :
  ActivateHooks.MessageHasBeenPosted p post
  = (when (IsSystemMessage post) return_;;
     '(userInfo, translatedText) ← translateFor p post;
     postTranslation p
       (plainPost (getConfiguration p) post userInfo translatedText)).
Proof.
  rewrite /ActivateHooks.MessageHasBeenPosted /translateFor /postTranslation
    /GetUser /GetUserInfo /GetTranslationProvider /CallTranslate /CreatePost.
  destruct (IsSystemMessage post); [done|].
  destruct (API_GetUser p _) as [[[]]|]; try done.
  destruct (getUserInfo p _) as [[? [] ? ?]|]; try done.
  destruct (getTranslationProvider p) as [pr|]; try done.
  cbn. destruct (provider_Translate pr _ _ _) as [[t|]|]; try done.
  cbn. destruct (String.eqb (strings.TrimSpace t) _); [done|].
  cbn. by destruct (API_CreatePost p _).
Qed.

Lemma attachment_steps p post :
  AttachmentHooks.MessageHasBeenPosted p post
  = (when (IsSystemMessage post) return_;;
     when (AttachmentHooks.fromPlugin post) return_;;
     '(userInfo, translatedText) ← translateFor p post;
     postTranslation p
       (attachmentPost (getConfiguration p) post userInfo translatedText)).
Proof.
  rewrite /AttachmentHooks.MessageHasBeenPosted /translateFor /postTranslation
    /GetUser /GetUserInfo /GetTranslationProvider /CallTranslate /CreatePost.
  destruct (IsSystemMessage post); [done|].
  destruct (AttachmentHooks.fromPlugin post); [done|].
  destruct (API_GetUser p _) as [[[]]|]; try done.
  destruct (getUserInfo p _) as [[? [] ? ?]|]; try done.
  destruct (getTranslationProvider p) as [pr|]; try done.
  cbn. destruct (provider_Translate pr _ _ _) as [[t|]|]; try done.
  cbn. destruct (String.eqb (strings.TrimSpace t) _); [done|].
  cbn. by destruct (API_CreatePost p _).
Qed.

Lemma plain_created p post :
  created (ActivateHooks.MessageHasBeenPosted p post)
  = if IsSystemMessage post then []
    else match snd (translateFor p post) with
         | Next (userInfo, translatedText) =>
             [plainPost (getConfiguration p) post
                userInfo translatedText]
         | _ => []
         end.
Proof.
  rewrite plain_steps.
  destruct (IsSystemMessage post); [done|].
  rewrite when_false_bind created_bind translateFor_created /=.
  destruct (snd (translateFor p post)) as [[userInfo t]| |]; try done.
  apply postTranslation_created.
Qed.

Lemma attachment_created p post :
  created (AttachmentHooks.MessageHasBeenPosted p post)
  = if IsSystemMessage post || AttachmentHooks.fromPlugin post then []
    else match snd (translateFor p post) with
         | Next (userInfo, translatedText) =>
             [attachmentPost (getConfiguration p) post
                userInfo translatedText]
         | _ => []
         end.
Proof.
  rewrite attachment_steps.
  destruct (IsSystemMessage post); [done|]. rewrite when_false_bind.
  destruct (AttachmentHooks.fromPlugin post); [done|].
  rewrite when_false_bind created_bind translateFor_created /=.
  destruct (snd (translateFor p post)) as [[userInfo t]| |]; try done.
  apply postTranslation_created.
Qed.

Lemma plain_translatedPost_marked configuration post userInfo translatedText :
  marked (plainPost configuration post userInfo
            translatedText).
Proof. eexists. split; [reflexivity|]. reflexivity. Qed.

Lemma attachment_translatedPost_marked configuration post userInfo
    translatedText :
  marked (attachmentPost configuration post userInfo
            translatedText).
Proof. eexists. split; [reflexivity|]. reflexivity. Qed.

Lemma marked_fromPlugin post :
  marked post → AttachmentHooks.fromPlugin post = true.
Proof.
  intros (props & Hp & Hm). rewrite /AttachmentHooks.fromPlugin Hp Hm.
  by apply bool_decide_eq_true.
Qed.

(** The loop guard of the attachment-styled revision: a post that carries
    the marker key ends the hook before any collaborator is called, so
    before the user, the bot flag or the preferences are looked at. *)
Lemma attachment_loop_guard p post :
  AttachmentHooks.fromPlugin post = true →
  AttachmentHooks.MessageHasBeenPosted p post = ([], Returned).
Proof.
  intros H. rewrite /AttachmentHooks.MessageHasBeenPosted H.
  by destruct (IsSystemMessage post).
Qed.

Lemma attachment_hook_ignores_marked_post p post :
  marked post → AttachmentHooks.MessageHasBeenPosted p post = ([], Returned).
Proof. intros H. by apply attachment_loop_guard, marked_fromPlugin. Qed.

End hook.

(** ** The stated properties *)

(** Claim C1. A post that carries the marker must never be answered.  The
    hook of [src/server/activate_hooks.go] has no marker check: for the marked
    post [markedPost] of an opted-in person it resolves the user, calls the
    provider and hands one reply to [CreatePost]. *)
Theorem plain_hook_answers_marked_post :
  marked markedPost
  ∧ ActivateHooks.MessageHasBeenPosted (stubPlugin "ko" "en" "Hello") markedPost
    = ([ EvGetUser "user1"; EvGetUserInfo "user1"; EvGetTranslationProvider;
         EvTranslate "안녕하세요" "ko" "en";
         EvCreatePost
           {| Id := ""; ChannelId := "town-square"; UserId := "user1";
              RootId := "post1";
              Message := "**[ko → en]**" +:+ LF +:+ "Hello";
              Type_ := "";
              Props := Some (list_to_map
                [ ("from_plugin", PropBool true);
                  ("override_username", PropString "autotranslate-bot");
                  ("override_icon_url", PropString "");
                  ("disable_group_highlight", PropBool true) ]) |} ],
       Next ()).
Proof.
  split; [|by vm_compute]. eexists. split; reflexivity.
Qed.

(** Claim C2. Every post either revision of the hook hands to [CreatePost]
    carries the marker: its [Props] hold the key [from_plugin] with the value
    [true]. *)
Theorem outbound_posts_carry_marker p post out :
  In out (created (ActivateHooks.MessageHasBeenPosted p post))
  ∨ In out (created (AttachmentHooks.MessageHasBeenPosted p post)) →
  marked out.
Proof.
  rewrite plain_created attachment_created.
  destruct (IsSystemMessage post); [by intros [[]|[]]|]. simpl.
  destruct (snd (translateFor p post)) as [[userInfo t]| |].
  - intros [[<-|[]]|H]; [apply plain_translatedPost_marked|].
    destruct (AttachmentHooks.fromPlugin post); [done|].
    destruct H as [<-|[]]. apply attachment_translatedPost_marked.
  - intros [[]|H]. by destruct (AttachmentHooks.fromPlugin post).
  - intros [[]|H]. by destruct (AttachmentHooks.fromPlugin post).
Qed.

Lemma outbound_posts_carry_marker_witness :
  In (plainPost (getConfiguration (stubPlugin "ko" "en" "Hello"))
        (userPost "post1" "" "안녕하세요")
        {| UserID := "user1"; Activated := true; SourceLanguage := "ko";
           TargetLanguage := "en" |}
        "Hello")
     (created (ActivateHooks.MessageHasBeenPosted (stubPlugin "ko" "en" "Hello")
                 (userPost "post1" "" "안녕하세요")))
  ∧ marked (plainPost (getConfiguration (stubPlugin "ko" "en" "Hello"))
              (userPost "post1" "" "안녕하세요")
              {| UserID := "user1"; Activated := true; SourceLanguage := "ko";
                 TargetLanguage := "en" |}
              "Hello").
Proof.
  assert (In (plainPost (getConfiguration (stubPlugin "ko" "en" "Hello"))
                (userPost "post1" "" "안녕하세요")
                {| UserID := "user1"; Activated := true; SourceLanguage := "ko";
                   TargetLanguage := "en" |}
                "Hello")
             (created (ActivateHooks.MessageHasBeenPosted
                         (stubPlugin "ko" "en" "Hello")
                         (userPost "post1" "" "안녕하세요")))) as Hin.
  { vm_compute. left. reflexivity. }
  split; [exact Hin|].
  apply (outbound_posts_carry_marker (stubPlugin "ko" "en" "Hello")
           (userPost "post1" "" "안녕하세요")).
  left. exact Hin.
Defined.


(** It fails as well for a text wrapped in two layers of quotes: one layer is
    stripped per application. *)
Lemma clean_strips_one_quote_layer :
  cleanTranslationOutput (DQ +:+ SQ +:+ "Hi" +:+ SQ +:+ DQ)
  = Some (SQ +:+ "Hi" +:+ SQ)
  ∧ cleanTranslationOutput (SQ +:+ "Hi" +:+ SQ) = Some "Hi".
Proof. by vm_compute. Qed.



(** Claim C4. The sanitizer should return for every text.  It panics on the
    text that is one double quote, and on the text that is one single quote:
    the quote is its own prefix and suffix, and [text[1 : len(text)-1]] is
    then the slice [text[1:0]]. *)
Theorem clean_panics_on_lone_quote :
  cleanTranslationOutput DQ = None ∧ cleanTranslationOutput SQ = None
  ∧ isQuoted DQ = true ∧ strings.slice DQ 1 (Z.of_nat (strings.len DQ) - 1) = None.
Proof. by vm_compute. Qed.

(** Only a lone quote character makes the quote step panic. *)
Lemma lone_quote_only t :
  isQuoted t = true → (strings.len t < 2)%nat → t = DQ ∨ t = SQ.
Proof.
  rewrite /isQuoted orb_true_iff !andb_true_iff.
  intros [[[r ->]%strings_facts.HasPrefix_spec _]
         |[[r ->]%strings_facts.HasPrefix_spec _]] Hl;
    rewrite strings_facts.len_app /= in Hl;
    (destruct r; [|simpl in Hl; lia]); auto.
Qed.

(** The panic reaches the caller: a completion that is a lone quote makes
    [Translate] panic, and with it the hook. *)
Lemma lone_quote_reply_panics :
  @Translate _ (@VLLMProvider_TranslationProvider loneQuoteBackend)
    (NewVLLMProvider "http://llm.local/v1/completions" "" "m") "안녕" "auto" "en"
  = None
  ∧ snd (ActivateHooks.MessageHasBeenPosted
           (pluginWith
              (Ok (@Provider _ (@VLLMProvider_TranslationProvider loneQuoteBackend)
                     (NewVLLMProvider "http://llm.local/v1/completions" "" "m")))
              "auto" "en")
           (userPost "post1" "" "안녕"))
    = Panicked.
Proof. by vm_compute. Qed.

(** Claim C9. The label is stripped, one quote layer is stripped, and the
    result is the five characters of Hello. *)
Theorem clean_label_and_quotes :
  cleanTranslationOutput ("Translation: " +:+ DQ +:+ "Hello" +:+ DQ)
  = Some "Hello".
Proof. reflexivity. Qed.




(** Claim C6. When every earlier check passes and the translation equals the
    original text after trimming, the hook returns without posting and
    without logging an error; this holds in both revisions. *)
Theorem same_text_short_circuit p post userInfo pr translatedText :
  IsSystemMessage post = false →
  eligible p post userInfo pr →
  provider_Translate pr (Message post) (SourceLanguage userInfo)
    (TargetLanguage userInfo) = Some (Ok translatedText) →
  strings.TrimSpace translatedText = strings.TrimSpace (Message post) →
  (created (ActivateHooks.MessageHasBeenPosted p post) = []
   ∧ logged (ActivateHooks.MessageHasBeenPosted p post) = []
   ∧ snd (ActivateHooks.MessageHasBeenPosted p post) = Returned)
  ∧ (created (AttachmentHooks.MessageHasBeenPosted p post) = []
     ∧ logged (AttachmentHooks.MessageHasBeenPosted p post) = []
     ∧ snd (AttachmentHooks.MessageHasBeenPosted p post) = Returned).
Proof.
  intros Hsys Hel Htr Heq.
  pose proof (translateFor_run _ _ _ _ _ Hel Htr) as Hrun.
  apply String.eqb_eq in Heq. rewrite Heq in Hrun.
  assert (ActivateHooks.MessageHasBeenPosted p post
          = (fst (translateFor p post), Returned)) as ->.
  { rewrite plain_steps Hsys when_false_bind. by rewrite Hrun. }
  split; [by rewrite Hrun|].
  rewrite attachment_steps Hsys when_false_bind.
  destruct (AttachmentHooks.fromPlugin post); [done|].
  by rewrite when_false_bind Hrun.
Qed.

Lemma same_text_short_circuit_witness :
  created (ActivateHooks.MessageHasBeenPosted (stubPlugin "auto" "en" "Hello")
             (userPost "post1" "" (" Hello" +:+ LF))) = []
  ∧ logged (ActivateHooks.MessageHasBeenPosted (stubPlugin "auto" "en" "Hello")
              (userPost "post1" "" (" Hello" +:+ LF))) = []
  ∧ snd (ActivateHooks.MessageHasBeenPosted (stubPlugin "auto" "en" "Hello")
           (userPost "post1" "" (" Hello" +:+ LF))) = Returned.
Proof.
  refine (proj1 (same_text_short_circuit (stubPlugin "auto" "en" "Hello")
            (userPost "post1" "" (" Hello" +:+ LF))
            {| UserID := "user1"; Activated := true; SourceLanguage := "auto";
               TargetLanguage := "en" |}
            (Provider {| stub_Translate := fun _ _ _ => Some (Ok "Hello") |})
            "Hello" _ _ _ _)).
  - reflexivity.
  - exists {| IsBot := false |}. repeat split; reflexivity.
  - reflexivity.
  - reflexivity.
Defined.

(** Claim C7. In both LLM-backed providers a response with status 200 whose
    body decodes to an empty list of choices makes [Translate] return the
    error no translation returned: no text is produced and nothing panics. *)
Theorem empty_choices_is_error `{Backend} text sourceLang targetLang :
  (∀ (p : VLLMProvider) req resp vllmResp,
     VLLM_request p text sourceLang targetLang = Ok req →
     http_Do req = Ok resp →
     StatusCode resp = StatusOK →
     Decode_VLLMResponse (RespBody resp) = Ok vllmResp →
     vllm_Choices vllmResp = [] →
     Translate p text sourceLang targetLang
     = Some (Err "no translation returned from vLLM"))
  ∧ (∀ (p : LiteLLMProvider) req resp litellmResp,
       LiteLLM_request p text sourceLang targetLang = Ok req →
       http_Do req = Ok resp →
       StatusCode resp = StatusOK →
       Decode_LiteLLMChatResponse (RespBody resp) = Ok litellmResp →
       chat_Choices litellmResp = [] →
       Translate p text sourceLang targetLang
       = Some (Err "no translation returned from LiteLLM")).
Proof.
  split; intros p req resp r Hreq Hdo Hst Hdec Hch; simpl.
  - by rewrite /VLLM_Translate Hreq Hdo Hst /= Hdec Hch.
  - by rewrite /LiteLLM_Translate Hreq Hdo Hst /= Hdec Hch.
Qed.

Lemma empty_choices_is_error_witness :
  @Translate _ (@VLLMProvider_TranslationProvider emptyChoicesBackend)
    (NewVLLMProvider "http://llm.local/v1/completions" "" "m") "안녕" "auto" "en"
  = Some (Err "no translation returned from vLLM")
  ∧ @Translate _ (@LiteLLMProvider_TranslationProvider emptyChoicesBackend)
      (NewLiteLLMProvider "http://llm.local/v1/chat/completions" "key" "m")
      "안녕" "ko" "en"
    = Some (Err "no translation returned from LiteLLM").
Proof.
  split.
  - eapply (proj1 (@empty_choices_is_error emptyChoicesBackend
                     "안녕" "auto" "en")); reflexivity.
  - eapply (proj2 (@empty_choices_is_error emptyChoicesBackend
                     "안녕" "ko" "en")); reflexivity.
Defined.

(** Claim C8. With the source language auto, both prompt builders ask only
    to translate to the target, named with its clarification: the prompt does
    not start with a from clause, for every text and target language, and for
    the greeting of the specification it holds no from at all. *)
Theorem auto_prompt_has_no_from_clause (p : VLLMProvider) text targetLang :
  createTranslationPrompt p text "auto" targetLang
  = "Translate to " +:+ getLanguageName targetLang
    +:+ getLanguageClarification targetLang
    +:+ ". Reply with ONLY the translation." +:+ LF +:+ LF +:+ text
  ∧ userPrompt text "auto" targetLang
    = "Translate to " +:+ getLanguageName targetLang
      +:+ getLanguageClarification targetLang +:+ ":" +:+ LF +:+ LF +:+ text
  ∧ strings.HasPrefix (createTranslationPrompt p text "auto" targetLang)
      "Translate from" = false
  ∧ strings.HasPrefix (userPrompt text "auto" targetLang) "Translate from"
    = false
  ∧ strings.Index (createTranslationPrompt p "안녕" "auto" "en") "from" = None
  ∧ strings.Index (userPrompt "안녕" "auto" "en") "from" = None.
Proof.
  repeat split; try reflexivity.
Qed.

(** With any other source language both builders do open with a from
    clause that names it. *)
Lemma named_source_prompt_has_from_clause (p : VLLMProvider) text sourceLang
    targetLang :
  sourceLang ≠ "auto" →
  strings.HasPrefix (createTranslationPrompt p text sourceLang targetLang)
    ("Translate from " +:+ getLanguageName sourceLang) = true
  ∧ strings.HasPrefix (userPrompt text sourceLang targetLang)
      ("Translate from " +:+ getLanguageName sourceLang) = true.
Proof.
  intros Hne%String.eqb_neq. rewrite /createTranslationPrompt /userPrompt Hne.
  split; apply strings_facts.HasPrefix_spec; eexists;
    by rewrite strings_facts.app_assoc.
Qed.

(** Setting the headers leaves the body of a request as it is. *)
Lemma authorize_keeps_body apiKey req : Body (authorize apiKey req) = Body req.
Proof. rewrite /authorize /Header_Set. by destruct (String.eqb apiKey ""). Qed.

(** The body of the request a provider has built is the marshalled
    [reqBody], when [http.NewRequest] keeps the body it is given. *)
Lemma vllm_request_body {B : Backend} (p : VLLMProvider) text sourceLang
    targetLang sent :
  (∀ method url body req,
     http_NewRequest method url body = Ok req → Body req = body) →
  VLLM_request p text sourceLang targetLang = Ok sent →
  Body sent
  = Marshal_VLLMRequest
      (VLLM_reqBody p (createTranslationPrompt p text sourceLang targetLang)).
Proof.
  intros Hkeep. rewrite /VLLM_request.
  destruct (http_NewRequest _ _ _) as [built|] eqn:Hbuilt; [|done].
  intros [= <-]. by rewrite authorize_keeps_body (Hkeep _ _ _ _ Hbuilt).
Qed.

(** The same for the chat-style provider. *)
Lemma litellm_request_body {B : Backend} (p : LiteLLMProvider) text sourceLang
    targetLang sent :
  (∀ method url body req,
     http_NewRequest method url body = Ok req → Body req = body) →
  LiteLLM_request p text sourceLang targetLang = Ok sent →
  Body sent
  = Marshal_LiteLLMChatRequest
      (LiteLLM_reqBody p (userPrompt text sourceLang targetLang)).
Proof.
  intros Hkeep. rewrite /LiteLLM_request.
  destruct (http_NewRequest _ _ _) as [built|] eqn:Hbuilt; [|done].
  intros [= <-]. by rewrite authorize_keeps_body (Hkeep _ _ _ _ Hbuilt).
Qed.

(** Claim C10. On every backend whose [http.NewRequest] keeps the body it is
    given, the request the completion-style [Translate] builds and hands to
    [client.Do] has the marshalled [reqBody] as its body, with an output cap
    of 512 tokens and the six stop sequences; the request of the chat-style
    [Translate] has a cap of 2048 tokens and no stop field, so the chat cap is
    strictly above the completion cap.  The request built is the one issued:
    [Translate] reports the failure of [client.Do] on it, and what
    [client.Do] would answer to any other request does not change the
    result. *)
Theorem chat_cap_exceeds_completion_cap {B : Backend} (pv : VLLMProvider)
    (pc : LiteLLMProvider) (text sourceLang targetLang : string) :
  (∀ method url body req,
     http_NewRequest method url body = Ok req → Body req = body) →
  (∀ sent, VLLM_request pv text sourceLang targetLang = Ok sent →
     Body sent
     = Marshal_VLLMRequest
         (VLLM_reqBody pv
            (createTranslationPrompt pv text sourceLang targetLang))
     ∧ json_field (Body sent) "max_tokens" = Some (JInt 512)
     ∧ json_field (Body sent) "stop"
       = Some (JArray (JString <$>
           [ LF +:+ LF; LF +:+ "Note:"; LF +:+ "Explanation:";
             LF +:+ "Translation:"; LF +:+ LF +:+ "Input:"; "[/INST]" ]))
     ∧ (∀ err, http_Do sent = Err err →
          Translate pv text sourceLang targetLang
          = Some (Err ("vLLM API request failed: " +:+ err)))
     ∧ (∀ do, do sent = http_Do sent →
          @Translate _ (@VLLMProvider_TranslationProvider (withDo B do))
            pv text sourceLang targetLang
          = Translate pv text sourceLang targetLang))
  ∧ (∀ sent, LiteLLM_request pc text sourceLang targetLang = Ok sent →
     Body sent
     = Marshal_LiteLLMChatRequest
         (LiteLLM_reqBody pc (userPrompt text sourceLang targetLang))
     ∧ json_field (Body sent) "max_tokens" = Some (JInt 2048)
     ∧ json_field (Body sent) "stop" = None
     ∧ (∀ err, http_Do sent = Err err →
          Translate pc text sourceLang targetLang
          = Some (Err ("LiteLLM API request failed: " +:+ err)))
     ∧ (∀ do, do sent = http_Do sent →
          @Translate _ (@LiteLLMProvider_TranslationProvider (withDo B do))
            pc text sourceLang targetLang
          = Translate pc text sourceLang targetLang))
  ∧ (∀ sentV sentC capV capC,
       VLLM_request pv text sourceLang targetLang = Ok sentV →
       LiteLLM_request pc text sourceLang targetLang = Ok sentC →
       json_field (Body sentV) "max_tokens" = Some (JInt capV) →
       json_field (Body sentC) "max_tokens" = Some (JInt capC) →
       capV < capC).
Proof.
  intros Hkeep. split; [|split].
  - intros sent Hsent.
    pose proof (vllm_request_body _ _ _ _ _ Hkeep Hsent) as Hbody.
    split; [done|]. rewrite Hbody. split; [done|]. split; [done|]. split.
    + intros err Hdo.
      change (Translate pv text sourceLang targetLang)
        with (VLLM_Translate pv text sourceLang targetLang).
      by rewrite /VLLM_Translate Hsent Hdo.
    + intros do Hdo.
      change (VLLM_Translate (H := withDo B do) pv text sourceLang targetLang
              = VLLM_Translate pv text sourceLang targetLang).
      rewrite /VLLM_Translate.
      change (VLLM_request (H := withDo B do) pv text sourceLang targetLang)
        with (VLLM_request pv text sourceLang targetLang).
      rewrite Hsent.
      change (http_Do (Backend := withDo B do) sent) with (do sent).
      by rewrite Hdo.
  - intros sent Hsent.
    pose proof (litellm_request_body _ _ _ _ _ Hkeep Hsent) as Hbody.
    split; [done|]. rewrite Hbody. split; [done|]. split; [done|]. split.
    + intros err Hdo.
      change (Translate pc text sourceLang targetLang)
        with (LiteLLM_Translate pc text sourceLang targetLang).
      by rewrite /LiteLLM_Translate Hsent Hdo.
    + intros do Hdo.
      change (LiteLLM_Translate (H := withDo B do) pc text sourceLang targetLang
              = LiteLLM_Translate pc text sourceLang targetLang).
      rewrite /LiteLLM_Translate.
      change (LiteLLM_request (H := withDo B do) pc text sourceLang targetLang)
        with (LiteLLM_request pc text sourceLang targetLang).
      rewrite Hsent.
      change (http_Do (Backend := withDo B do) sent) with (do sent).
      by rewrite Hdo.
  - intros sentV sentC capV capC HV HC.
    rewrite (vllm_request_body _ _ _ _ _ Hkeep HV)
            (litellm_request_body _ _ _ _ _ Hkeep HC).
    by intros [= <-] [= <-].
Qed.

(** The two requests for a Korean greeting, on a backend that builds the
    request from its three arguments. *)
Lemma chat_cap_exceeds_completion_cap_witness :
  (∀ method url body req,
     @http_NewRequest emptyChoicesBackend method url body = Ok req →
     Body req = body)
  ∧ ∃ sentV sentC,
      @VLLM_request emptyChoicesBackend
        (NewVLLMProvider "http://llm.local/v1/completions" "" "m")
        "안녕하세요" "ko" "en" = Ok sentV
      ∧ @LiteLLM_request emptyChoicesBackend
          (NewLiteLLMProvider "http://llm.local/v1/chat/completions" "key" "m")
          "안녕하세요" "ko" "en" = Ok sentC
      ∧ json_field (Body sentV) "max_tokens" = Some (JInt 512)
      ∧ json_field (Body sentV) "stop"
        = Some (JArray
            [ JString (LF +:+ LF); JString (LF +:+ "Note:");
              JString (LF +:+ "Explanation:"); JString (LF +:+ "Translation:");
              JString (LF +:+ LF +:+ "Input:"); JString "[/INST]" ])
      ∧ json_field (Body sentC) "max_tokens" = Some (JInt 2048)
      ∧ json_field (Body sentC) "stop" = None
      ∧ 512 < 2048.
Proof.
  assert (∀ method url body req,
            @http_NewRequest emptyChoicesBackend method url body = Ok req →
            Body req = body) as Hkeep.
  { intros method url body req Hreq. injection Hreq as <-. reflexivity. }
  split; [exact Hkeep|].
  destruct (@chat_cap_exceeds_completion_cap emptyChoicesBackend
              (NewVLLMProvider "http://llm.local/v1/completions" "" "m")
              (NewLiteLLMProvider "http://llm.local/v1/chat/completions"
                 "key" "m")
              "안녕하세요" "ko" "en" Hkeep) as (HV & HC & Hlt).
  eexists _, _. split; [reflexivity|]. split; [reflexivity|].
  destruct (HV _ eq_refl) as (_ & HcapV & HstopV & _).
  destruct (HC _ eq_refl) as (_ & HcapC & HstopC & _).
  split; [exact HcapV|]. split; [exact HstopV|].
  split; [exact HcapC|]. split; [exact HstopC|].
  exact (Hlt _ _ _ _ eq_refl eq_refl HcapV HcapC).
Defined.

(** ** The end-to-end examples of the specification *)

Example end_to_end_hello :
  created (ActivateHooks.MessageHasBeenPosted (stubPlugin "ko" "en" "Hello")
             (userPost "post1" "" "안녕하세요"))
  = [ {| Id := ""; ChannelId := "town-square"; UserId := "user1";
         RootId := "post1";
         Message := "**[ko → en]**" +:+ LF +:+ "Hello";
         Type_ := "";
         Props := Some (list_to_map
           [ ("from_plugin", PropBool true);
             ("override_username", PropString "autotranslate-bot");
             ("override_icon_url", PropString "");
             ("disable_group_highlight", PropBool true) ]) |} ].
Proof. by vm_compute. Qed.

Example end_to_end_provider_error :
  ActivateHooks.MessageHasBeenPosted
    (pluginWith
       (Ok (Provider {| stub_Translate := fun _ _ _ => Some (Err "backend down") |}))
       "ko" "en")
    (userPost "post1" "" "안녕하세요")
  = ([ EvGetUser "user1"; EvGetUserInfo "user1"; EvGetTranslationProvider;
       EvTranslate "안녕하세요" "ko" "en";
       EvLogError "Failed to translate message" "error" "backend down" ],
     Returned).
Proof. reflexivity. Qed.

(** * Further properties of the code *)

(** ** The output sanitizer *)

Section sanitizer_more.
Import strings strings_facts.

Lemma within_refl x : within x x.
Proof. exists "", "". by rewrite app_nil_r. Qed.

Lemma within_trans x y z : within x y → within y z → within x z.
Proof.
  intros (a & b & ->) (c & d & ->). exists (c +:+ a), (b +:+ d).
  by rewrite !app_assoc.
Qed.

Lemma within_prefix t b : within t (t +:+ b).
Proof. by exists "", b. Qed.

Lemma within_drop n s : within (drop n s) s.
Proof. exists (take n s), "". by rewrite app_nil_r take_drop. Qed.

Lemma within_take n s : within (take n s) s.
Proof. exists "", (drop n s). by rewrite app_nil_l take_drop. Qed.

Lemma within_TrimSpace s : within (TrimSpace s) s.
Proof. apply TrimSpace_infix. Qed.

Lemma within_len y x : within y x → (len y ≤ len x)%nat.
Proof. intros (a & b & ->). rewrite !len_app. lia. Qed.

Lemma within_stripPrefix text p : within (stripPrefix text p) text.
Proof.
  rewrite /stripPrefix /TrimPrefix. destruct (HasPrefix text p).
  - eapply within_trans; [apply within_TrimSpace|apply within_drop].
  - apply within_refl.
Qed.

Lemma within_strip text l : within (foldl stripPrefix text l) text.
Proof.
  revert text; induction l as [|p l IH]; intros text; [apply within_refl|].
  simpl. eapply within_trans; [apply IH|apply within_stripPrefix].
Qed.

Lemma within_slice text lo hi u : slice text lo hi = Some u → within u text.
Proof.
  rewrite /slice. destruct (_ && _); [|done]. intros [= <-].
  eapply within_trans; [apply within_take|apply within_drop].
Qed.

Lemma within_truncateAt text m t : truncateAt text m = Some t → within t text.
Proof.
  rewrite /truncateAt. destruct (Index text m); [apply within_slice|].
  intros [= <-]. apply within_refl.
Qed.

(** Property X1. The sanitizer only removes text: its result is a contiguous
    part of the input, so it is never longer than the input. *)
Theorem clean_result_within_input x y :
  cleanTranslationOutput x = Some y →
  within y x ∧ (len y ≤ len x)%nat.
Proof.
  intros H. assert (within y x) as Hw; [|by split; [|apply within_len]].
  revert H. rewrite /cleanTranslationOutput.
  set (t1 := foldl stripPrefix (TrimSpace x) unwantedPrefixes).
  assert (within t1 x) as H1.
  { eapply within_trans; [apply within_strip|apply within_TrimSpace]. }
  destruct (if isQuoted t1 then _ else _) as [t2|] eqn:E2; [|done].
  assert (within t2 t1) as H2.
  { destruct (isQuoted t1).
    - destruct (slice t1 1 _) as [u|] eqn:Eu; [|done]. injection E2 as <-.
      eapply within_trans; [apply within_TrimSpace|by eapply within_slice].
    - injection E2 as <-. apply within_refl. }
  simpl. destruct (truncateAt t2 noteMarker) as [t3|] eqn:E3; [|done]. simpl.
  destruct (truncateAt t3 explanationMarker) as [t4|] eqn:E4; [|done]. simpl.
  intros [= <-].
  eapply within_trans; [apply within_TrimSpace|].
  eapply within_trans; [by eapply within_truncateAt|].
  eapply within_trans; [by eapply within_truncateAt|].
  by eapply within_trans.
Qed.

Lemma clean_result_within_input_witness :
  cleanTranslationOutput ("Output: 'Hi'" +:+ LF +:+ LF +:+ "Note: literal") = Some "'Hi'"
  ∧ within "'Hi'" ("Output: 'Hi'" +:+ LF +:+ LF +:+ "Note: literal")
  ∧ (len "'Hi'" ≤ len ("Output: 'Hi'" +:+ LF +:+ LF +:+ "Note: literal"))%nat.
Proof.
  split; [reflexivity|].
  apply (clean_result_within_input
           ("Output: 'Hi'" +:+ LF +:+ LF +:+ "Note: literal") "'Hi'").
  reflexivity.
Defined.

(** Property X2. Every result of the sanitizer starts and ends with a rune
    that is no white space, and holds neither the note marker nor the
    explanation marker. *)
Theorem clean_result_trimmed_and_marker_free x y :
  cleanTranslationOutput x = Some y →
  leadingSpace y = None ∧ trailingSpace y = None
  ∧ Index y noteMarker = None ∧ Index y explanationMarker = None.
Proof.
  intros (Ht & Hn & He)%clean_output_trimmed.
  rewrite -Ht. destruct (TrimSpace_trimmed y) as [Hl Hr].
  rewrite Ht. rewrite Ht in Hl Hr. done.
Qed.

Lemma clean_result_trimmed_and_marker_free_witness :
  cleanTranslationOutput (" Hi " +:+ LF +:+ LF +:+ "Explanation: a greeting")
  = Some "Hi"
  ∧ leadingSpace "Hi" = None ∧ trailingSpace "Hi" = None
  ∧ Index "Hi" noteMarker = None ∧ Index "Hi" explanationMarker = None.
Proof.
  split; [reflexivity|].
  apply (clean_result_trimmed_and_marker_free
           (" Hi " +:+ LF +:+ LF +:+ "Explanation: a greeting") "Hi").
  reflexivity.
Defined.



(** Property X4. The sanitizer panics exactly when the text left after
    trimming and label stripping is a lone double quote or a lone single
    quote. *)
Theorem clean_panics_exactly_on_lone_quote x :
  cleanTranslationOutput x = None
  ↔ foldl stripPrefix (TrimSpace x) unwantedPrefixes = DQ
    ∨ foldl stripPrefix (TrimSpace x) unwantedPrefixes = SQ.
Proof.
  rewrite clean_panics_iff. cbv zeta. split.
  - intros [Hq Hl]. by apply lone_quote_only.
  - intros [->| ->]; (split; [reflexivity|simpl; lia]).
Qed.

Lemma split_last q : (0 < len q)%nat → ∃ q' d, q = q' +:+ String d "".
Proof.
  induction q as [|c q IH]; [simpl; lia|]. intros _.
  destruct q as [|c' q]; [by exists "", c|].
  destruct IH as (q' & d & E); [simpl; lia|].
  exists (String c q'), d. by rewrite app_cons -E.
Qed.

Lemma app_last_eq a c a' d :
  a +:+ String c "" = a' +:+ String d "" → c = d.
Proof.
  intros E. assert (len a = len a') as Hl.
  { apply (f_equal len) in E. rewrite !len_app /= in E. lia. }
  apply (f_equal (drop (len a))) in E.
  rewrite drop_app_len Hl drop_app_len in E. by injection E.
Qed.

(** No space rune's encoding ends with the byte [c], so a text that ends
    with [c] has no trailing space. *)
Lemma trailingSpace_last a c :
  forallb (fun q => negb (HasSuffix q (String c ""))) spaceEncodings = true →
  trailingSpace (a +:+ String c "") = None.
Proof.
  intros Hc. apply find_None. intros q Hq.
  destruct (HasSuffix (a +:+ String c "") q) eqn:E; [|done].
  apply HasSuffix_spec in E as [a' E].
  destruct (split_last q) as (q' & d & ->);
    [by apply spaceEncodings_nonempty|].
  rewrite -app_assoc in E. apply app_last_eq in E as <-.
  rewrite forallb_forall in Hc. specialize (Hc _ Hq).
  assert (HasSuffix (q' +:+ String c "") (String c "") = true) as Hs
    by (apply HasSuffix_spec; eauto).
  by rewrite Hs in Hc.
Qed.

Lemma slice_inner_quoted c u :
  slice (String c (u +:+ String c "")) 1
    (Z.of_nat (len (String c (u +:+ String c ""))) - 1) = Some u.
Proof.
  rewrite /slice /= len_app /=.
  replace (1 <=? _) with true by (symmetry; apply Z.leb_le; lia).
  replace (_ <=? _) with true by (symmetry; apply Z.leb_le; lia).
  simpl. f_equal.
  replace (Z.to_nat _) with (len u) by lia. apply take_app_len.
Qed.

Lemma HasPrefix_first c r q :
  (0 < len q)%nat → HasPrefix (String c r) q = true →
  HasPrefix q (String c "") = true.
Proof.
  destruct q as [|d q]; [simpl; lia|]. intros _. rewrite /HasPrefix /=.
  destruct (ascii_dec d c) as [->|]; [|done]. intros _.
  destruct (ascii_dec c c); [|done]. by destruct q.
Qed.

(** No string of [l] starts with the byte [c], so none is a prefix of a text
    that starts with [c]. *)
Lemma no_prefix_first c r l :
  forallb (fun q => (0 <? len q)%nat && negb (HasPrefix q (String c ""))) l
  = true →
  Forall (fun q => HasPrefix (String c r) q = false) l.
Proof.
  rewrite forallb_forall. intros H. apply Forall_forall. intros q Hq.
  apply list_elem_of_In, H, andb_true_iff in Hq as [Hl%Nat.ltb_lt Hn].
  destruct (HasPrefix (String c r) q) eqn:E; [|done].
  by rewrite (HasPrefix_first _ _ _ Hl E) in Hn.
Qed.

Lemma clean_quoted c u :
  forallb (fun q => (0 <? len q)%nat && negb (HasPrefix q (String c "")))
    spaceEncodings = true →
  forallb (fun q => negb (HasSuffix q (String c ""))) spaceEncodings = true →
  forallb (fun q => (0 <? len q)%nat && negb (HasPrefix q (String c "")))
    unwantedPrefixes = true →
  isQuoted (String c (u +:+ String c "")) = true →
  TrimSpace u = u →
  Index u noteMarker = None → Index u explanationMarker = None →
  cleanTranslationOutput (String c (u +:+ String c "")) = Some u.
Proof.
  intros Hlead Htrail Hlab Hq Ht Hn He.
  assert (TrimSpace (String c (u +:+ String c ""))
          = String c (u +:+ String c "")) as Htrim.
  { apply TrimSpace_fixed.
    - apply find_None. intros q Hin.
      pose proof (no_prefix_first c (u +:+ String c "") _ Hlead) as Hf.
      rewrite Forall_forall in Hf. by apply Hf, list_elem_of_In.
    - change (String c (u +:+ String c ""))
        with (String c "" +:+ u +:+ String c "").
      rewrite -app_assoc. by apply trailingSpace_last. }
  rewrite /cleanTranslationOutput Htrim.
  rewrite strip_no_prefix; [by apply no_prefix_first|].
  rewrite Hq slice_inner_quoted /= Ht.
  by rewrite (truncateAt_absent _ _ Hn) /= (truncateAt_absent _ _ He) /= Ht.
Qed.

(** Property X5. A text wrapped in one pair of straight quotes yields what is
    inside the quotes, provided the inside is trimmed and holds no marker:
    exactly one layer is stripped, also when the inside is empty or itself
    quoted. *)
Theorem clean_strips_surrounding_quotes u :
  TrimSpace u = u →
  Index u noteMarker = None → Index u explanationMarker = None →
  cleanTranslationOutput (DQ +:+ u +:+ DQ) = Some u
  ∧ cleanTranslationOutput (SQ +:+ u +:+ SQ) = Some u.
Proof.
  intros Ht Hn He.
  split; apply clean_quoted; try done; apply orb_true_iff; [left|right];
    (apply andb_true_iff; split;
     [apply HasPrefix_spec; by eexists
     |apply HasSuffix_spec; by eexists (String _ u)]).
Qed.

Lemma clean_strips_surrounding_quotes_witness :
  cleanTranslationOutput (DQ +:+ "Hello" +:+ DQ) = Some "Hello"
  ∧ cleanTranslationOutput (SQ +:+ "Hello" +:+ SQ) = Some "Hello".
Proof.
  apply (clean_strips_surrounding_quotes "Hello"); reflexivity.
Defined.

End sanitizer_more.

(** ** The prompt builders, the catalog and the providers *)

Section prompts_more.
Import strings strings_facts.

(** Property X6. The prompt opens with a from clause exactly when the source
    language is not auto, in both builders. *)
Theorem from_clause_iff_named_source (p : VLLMProvider) text sourceLang
    targetLang :
  (HasPrefix (createTranslationPrompt p text sourceLang targetLang)
     "Translate from " = true ↔ sourceLang ≠ "auto")
  ∧ (HasPrefix (userPrompt text sourceLang targetLang) "Translate from "
     = true ↔ sourceLang ≠ "auto").
Proof.
  rewrite /createTranslationPrompt /userPrompt.
  destruct (String.eqb_spec sourceLang "auto") as [->|Hne].
  - split; (split; [by intros [=]|done]).
  - split; (split; [done|intros _]);
      apply HasPrefix_spec; eexists; reflexivity.
Qed.

(** Both builders end the prompt with an empty line and then the text,
    byte for byte, whatever the languages are. *)
Lemma prompt_ends_with_text (p : VLLMProvider) text sourceLang targetLang :
  HasSuffix (createTranslationPrompt p text sourceLang targetLang)
    (LF +:+ LF +:+ text) = true
  ∧ HasSuffix (userPrompt text sourceLang targetLang) (LF +:+ LF +:+ text)
    = true.
Proof.
  rewrite /createTranslationPrompt /userPrompt.
  destruct (String.eqb sourceLang "auto");
    split; apply HasSuffix_spec; eexists; rewrite -?app_assoc; reflexivity.
Qed.

(** Property X7. The catalog: a code that is not empty never gets an empty
    display name; every code with a clarification is a code of the catalog;
    and a code outside the catalog is used as it is, without a clarification. *)
Theorem catalog_names code :
  (code ≠ "" → getLanguageName code ≠ "")
  ∧ (is_Some (clarifications !! code) → is_Some (languageNames !! code))
  ∧ (languageNames !! code = None →
     getLanguageName code = code ∧ getLanguageClarification code = "").
Proof.
  assert (map_Forall (fun _ name => name ≠ "") languageNames) as Hnames.
  { apply (bool_decide_unpack _). by vm_compute. }
  assert (map_Forall (fun c _ => is_Some (languageNames !! c)) clarifications)
    as Hclar.
  { apply (bool_decide_unpack _). by vm_compute. }
  rewrite /getLanguageName /getLanguageClarification. split; [|split].
  - intros Hne. destruct (languageNames !! code) as [name|] eqn:E; [|done].
    by apply (Hnames _ _ E).
  - intros [c E]. by apply (Hclar _ _ E).
  - intros Hnone. rewrite Hnone. split; [done|].
    destruct (clarifications !! code) as [c|] eqn:E; [|done].
    apply Hclar in E as [? E]. congruence.
Qed.

End prompts_more.

Section providers_more.
Import strings strings_facts.
Context `{Backend}.

(** What a call of a provider can end in, step by step. *)
Ltac translate_cases req resp r :=
  destruct (http_Do req) as [resp|?] eqn:Hdo; [|try done];
  [destruct (StatusCode resp =? StatusOK) eqn:Hst; cbn [negb]; [|try done];
   [match goal with
    | |- context [Decode_VLLMResponse ?b] =>
        destruct (Decode_VLLMResponse b) as [r|?] eqn:Hdec
    | |- context [Decode_LiteLLMChatResponse ?b] =>
        destruct (Decode_LiteLLMChatResponse b) as [r|?] eqn:Hdec
    end; [|try done]|..]|..].

(** Property X8. The completion-style provider returns a translation exactly
    when the request could be built and sent, the status is 200, the body
    decodes to at least one choice and the sanitizer returns for the text of
    the first choice; the translation is that sanitized text, and further
    choices are not looked at. *)
Theorem vllm_translate_success (p : VLLMProvider) text sourceLang targetLang
    translatedText :
  Translate p text sourceLang targetLang = Some (Ok translatedText)
  ↔ ∃ req resp vllmResp choice rest,
      VLLM_request p text sourceLang targetLang = Ok req
      ∧ http_Do req = Ok resp
      ∧ StatusCode resp = StatusOK
      ∧ Decode_VLLMResponse (RespBody resp) = Ok vllmResp
      ∧ vllm_Choices vllmResp = choice :: rest
      ∧ cleanTranslationOutput (Text choice) = Some translatedText.
Proof.
  change (Translate p text sourceLang targetLang)
    with (VLLM_Translate p text sourceLang targetLang).
  rewrite /VLLM_Translate. split.
  - destruct (VLLM_request _ _ _ _) as [req|] eqn:Hreq; [|done].
    translate_cases req resp r.
    destruct r as [[|c rest]]; [done|]. cbn -[cleanTranslationOutput].
    destruct (cleanTranslationOutput (Text c)) as [t|] eqn:Hc; [|done].
    intros [= <-]. apply Z.eqb_eq in Hst. by eexists req, resp, _, c, rest.
  - intros (req & resp & r & c & rest & -> & -> & -> & -> & Hch & Hc).
    rewrite Z.eqb_refl Hch. cbn -[cleanTranslationOutput]. by rewrite Hc.
Qed.

(** Property X9. The same for the chat-style provider, on the content of the
    first choice's message. *)
Theorem litellm_translate_success (p : LiteLLMProvider) text sourceLang
    targetLang translatedText :
  Translate p text sourceLang targetLang = Some (Ok translatedText)
  ↔ ∃ req resp litellmResp choice rest,
      LiteLLM_request p text sourceLang targetLang = Ok req
      ∧ http_Do req = Ok resp
      ∧ StatusCode resp = StatusOK
      ∧ Decode_LiteLLMChatResponse (RespBody resp) = Ok litellmResp
      ∧ chat_Choices litellmResp = choice :: rest
      ∧ cleanTranslationOutput (Content (Message_ choice))
        = Some translatedText.
Proof.
  change (Translate p text sourceLang targetLang)
    with (LiteLLM_Translate p text sourceLang targetLang).
  rewrite /LiteLLM_Translate. split.
  - destruct (LiteLLM_request _ _ _ _) as [req|] eqn:Hreq; [|done].
    translate_cases req resp r.
    destruct r as [[|c rest]]; [done|]. cbn -[cleanTranslationOutput].
    destruct (cleanTranslationOutput (Content (Message_ c))) as [t|] eqn:Hc;
      [|done].
    intros [= <-]. apply Z.eqb_eq in Hst. by eexists req, resp, _, c, rest.
  - intros (req & resp & r & c & rest & -> & -> & -> & -> & Hch & Hc).
    rewrite Z.eqb_refl Hch. cbn -[cleanTranslationOutput]. by rewrite Hc.
Qed.

(** Every call of either LLM-backed provider without the monad. *)
Lemma vllm_run (p : VLLMProvider) text sourceLang targetLang :
  VLLM_Translate p text sourceLang targetLang
  = match VLLM_request p text sourceLang targetLang with
    | Err err => Some (Err err)
    | Ok req =>
      match http_Do req with
      | Err err => Some (Err ("vLLM API request failed: " +:+ err))
      | Ok resp =>
        if StatusCode resp =? StatusOK
        then match Decode_VLLMResponse (RespBody resp) with
             | Err err => Some (Err ("failed to decode response: " +:+ err))
             | Ok vllmResp =>
               match vllm_Choices vllmResp with
               | [] => Some (Err "no translation returned from vLLM")
               | choice :: _ => Ok <$> cleanTranslationOutput (Text choice)
               end
             end
        else Some (Err ("vLLM API error (status " +:+ pretty (StatusCode resp)
                        +:+ "): " +:+ RespBody resp))
      end
    end.
Proof.
  rewrite /VLLM_Translate.
  destruct (VLLM_request _ _ _ _) as [req|]; [|done].
  destruct (http_Do req) as [resp|]; [|done].
  destruct (StatusCode resp =? StatusOK); cbn [negb]; [|done].
  by destruct (Decode_VLLMResponse _) as [[[|c rest]]|].
Qed.

Lemma litellm_run (p : LiteLLMProvider) text sourceLang targetLang :
  LiteLLM_Translate p text sourceLang targetLang
  = match LiteLLM_request p text sourceLang targetLang with
    | Err err => Some (Err err)
    | Ok req =>
      match http_Do req with
      | Err err => Some (Err ("LiteLLM API request failed: " +:+ err))
      | Ok resp =>
        if StatusCode resp =? StatusOK
        then match Decode_LiteLLMChatResponse (RespBody resp) with
             | Err err => Some (Err ("failed to decode response: " +:+ err))
             | Ok litellmResp =>
               match chat_Choices litellmResp with
               | [] => Some (Err "no translation returned from LiteLLM")
               | choice :: _ =>
                   Ok <$> cleanTranslationOutput (Content (Message_ choice))
               end
             end
        else Some (Err ("LiteLLM API error (status "
                        +:+ pretty (StatusCode resp)
                        +:+ "): " +:+ RespBody resp))
      end
    end.
Proof.
  rewrite /LiteLLM_Translate.
  destruct (LiteLLM_request _ _ _ _) as [req|]; [|done].
  destruct (http_Do req) as [resp|]; [|done].
  destruct (StatusCode resp =? StatusOK); cbn [negb]; [|done].
  by destruct (Decode_LiteLLMChatResponse _) as [[[|c rest]]|].
Qed.

(** Property X10. A translation returned by an LLM-backed provider is always
    sanitized: it has no white space at either end and holds neither the note
    marker nor the explanation marker. *)
Theorem llm_translation_is_sanitized (pv : VLLMProvider) (pc : LiteLLMProvider)
    text sourceLang targetLang translatedText :
  Translate pv text sourceLang targetLang = Some (Ok translatedText)
  ∨ Translate pc text sourceLang targetLang = Some (Ok translatedText) →
  leadingSpace translatedText = None ∧ trailingSpace translatedText = None
  ∧ Index translatedText noteMarker = None
  ∧ Index translatedText explanationMarker = None.
Proof.
  intros Hor.
  assert (∀ raw, Ok <$> cleanTranslationOutput raw = Some (Ok translatedText) →
                 cleanTranslationOutput raw = Some translatedText) as Hfmap.
  { intros raw. destruct (cleanTranslationOutput raw); [|done].
    by intros [= ->]. }
  assert (∃ raw, cleanTranslationOutput raw = Some translatedText)
    as [raw Hraw].
  { destruct Hor as [Ht|Ht].
    - change (VLLM_Translate pv text sourceLang targetLang
              = Some (Ok translatedText)) in Ht.
      rewrite vllm_run in Ht.
      destruct (VLLM_request _ _ _ _) as [req|]; [|done].
      destruct (http_Do req) as [resp|]; [|done].
      destruct (StatusCode resp =? StatusOK); [|done].
      destruct (Decode_VLLMResponse _) as [[[|c rest]]|]; try done.
      exists (Text c). by apply Hfmap.
    - change (LiteLLM_Translate pc text sourceLang targetLang
              = Some (Ok translatedText)) in Ht.
      rewrite litellm_run in Ht.
      destruct (LiteLLM_request _ _ _ _) as [req|]; [|done].
      destruct (http_Do req) as [resp|]; [|done].
      destruct (StatusCode resp =? StatusOK); [|done].
      destruct (Decode_LiteLLMChatResponse _) as [[[|c rest]]|]; try done.
      exists (Content (Message_ c)). by apply Hfmap. }
  apply clean_output_trimmed in Hraw as (Ht & Hn & He).
  destruct (TrimSpace_trimmed translatedText) as [Hl Hr].
  rewrite Ht in Hl Hr. done.
Qed.

(** Property X11. An LLM-backed provider panics exactly when the status is
    200, the body decodes to at least one choice, and the sanitizer panics on
    the text of the first choice. *)
Theorem llm_translate_panics_iff (pv : VLLMProvider) (pc : LiteLLMProvider)
    text sourceLang targetLang :
  (Translate pv text sourceLang targetLang = None
   ↔ ∃ req resp vllmResp choice rest,
       VLLM_request pv text sourceLang targetLang = Ok req
       ∧ http_Do req = Ok resp ∧ StatusCode resp = StatusOK
       ∧ Decode_VLLMResponse (RespBody resp) = Ok vllmResp
       ∧ vllm_Choices vllmResp = choice :: rest
       ∧ cleanTranslationOutput (Text choice) = None)
  ∧ (Translate pc text sourceLang targetLang = None
     ↔ ∃ req resp litellmResp choice rest,
         LiteLLM_request pc text sourceLang targetLang = Ok req
         ∧ http_Do req = Ok resp ∧ StatusCode resp = StatusOK
         ∧ Decode_LiteLLMChatResponse (RespBody resp) = Ok litellmResp
         ∧ chat_Choices litellmResp = choice :: rest
         ∧ cleanTranslationOutput (Content (Message_ choice)) = None).
Proof.
  split.
  - change (Translate pv text sourceLang targetLang)
      with (VLLM_Translate pv text sourceLang targetLang).
    rewrite vllm_run. split.
    + destruct (VLLM_request _ _ _ _) as [req|]; [|done].
      destruct (http_Do req) as [resp|] eqn:Hdo; [|done].
      destruct (StatusCode resp =? StatusOK) eqn:Hst; [|done].
      destruct (Decode_VLLMResponse _) as [[[|c rest]]|] eqn:Hd; try done.
      cbn -[cleanTranslationOutput].
      destruct (cleanTranslationOutput (Text c)) eqn:Hc; [done|]. intros _.
      apply Z.eqb_eq in Hst. by eexists req, resp, _, c, rest.
    + intros (req & resp & r & c & rest & -> & -> & -> & -> & Hch & Hc).
      by rewrite Z.eqb_refl Hch Hc.
  - change (Translate pc text sourceLang targetLang)
      with (LiteLLM_Translate pc text sourceLang targetLang).
    rewrite litellm_run. split.
    + destruct (LiteLLM_request _ _ _ _) as [req|]; [|done].
      destruct (http_Do req) as [resp|] eqn:Hdo; [|done].
      destruct (StatusCode resp =? StatusOK) eqn:Hst; [|done].
      destruct (Decode_LiteLLMChatResponse _) as [[[|c rest]]|] eqn:Hd;
        try done.
      cbn -[cleanTranslationOutput].
      destruct (cleanTranslationOutput (Content (Message_ c))) eqn:Hc;
        [done|]. intros _.
      apply Z.eqb_eq in Hst. by eexists req, resp, _, c, rest.
    + intros (req & resp & r & c & rest & -> & -> & -> & -> & Hch & Hc).
      by rewrite Z.eqb_refl Hch Hc.
Qed.

(** Property X12. Every error of the completion-style provider names the step
    that failed: building the request, sending it, a status other than 200
    (with the status and the body), decoding the body, or an empty list of
    choices. *)
Theorem vllm_error_names_the_step (p : VLLMProvider) text sourceLang
    targetLang err :
  Translate p text sourceLang targetLang = Some (Err err) →
  (∃ e, VLLM_request p text sourceLang targetLang = Err e
        ∧ err = e ∧ HasPrefix err "failed to create request: " = true)
  ∨ ∃ req, VLLM_request p text sourceLang targetLang = Ok req
      ∧ ((∃ e, http_Do req = Err e ∧ err = "vLLM API request failed: " +:+ e)
         ∨ ∃ resp, http_Do req = Ok resp
             ∧ ((StatusCode resp ≠ StatusOK
                 ∧ err = "vLLM API error (status "
                         +:+ pretty (StatusCode resp) +:+ "): "
                         +:+ RespBody resp)
                ∨ (StatusCode resp = StatusOK
                   ∧ ((∃ e, Decode_VLLMResponse (RespBody resp) = Err e
                            ∧ err = "failed to decode response: " +:+ e)
                      ∨ (Decode_VLLMResponse (RespBody resp)
                         = Ok {| vllm_Choices := [] |}
                         ∧ err = "no translation returned from vLLM"))))).
Proof.
  change (Translate p text sourceLang targetLang)
    with (VLLM_Translate p text sourceLang targetLang).
  rewrite vllm_run.
  destruct (VLLM_request _ _ _ _) as [req|e] eqn:Hreq.
  2:{ intros [= <-]. left. exists e. split; [done|]. split; [done|].
      revert Hreq. rewrite /VLLM_request.
      destruct (http_NewRequest _ _ _); [done|]. intros [= <-].
      apply HasPrefix_spec. by eexists. }
  intros Herr. right. exists req. split; [done|].
  destruct (http_Do req) as [resp|e] eqn:Hdo.
  2:{ injection Herr as <-. left. by exists e. }
  right. exists resp. split; [done|].
  destruct (StatusCode resp =? StatusOK) eqn:Hst.
  2:{ injection Herr as <-. left. by apply Z.eqb_neq in Hst. }
  right. apply Z.eqb_eq in Hst. split; [done|].
  destruct (Decode_VLLMResponse _) as [[[|c rest]]|e] eqn:Hd.
  - injection Herr as <-. by right.
  - cbn -[cleanTranslationOutput] in Herr.
    by destruct (cleanTranslationOutput (Text c)).
  - injection Herr as <-. left. by exists e.
Qed.

(** Property X13. The request either LLM-backed provider sends is a POST of
    the marshalled body, as JSON; it carries the API key as a bearer token
    exactly when a key is configured. *)
Theorem llm_request_headers apiKey req :
  Method (authorize apiKey req) = Method req
  ∧ URL (authorize apiKey req) = URL req
  ∧ Body (authorize apiKey req) = Body req
  ∧ Header (authorize apiKey req) !! "Content-Type" = Some "application/json"
  ∧ Header (authorize apiKey req) !! "Authorization"
    = (if String.eqb apiKey "" then Header req !! "Authorization"
       else Some ("Bearer " +:+ apiKey))
  ∧ (∀ (pv : VLLMProvider) text sourceLang targetLang sent,
       VLLM_request pv text sourceLang targetLang = Ok sent →
       ∃ built,
         http_NewRequest "POST" (vllm_apiURL pv)
           (Marshal_VLLMRequest
              (VLLM_reqBody pv
                 (createTranslationPrompt pv text sourceLang targetLang)))
         = Ok built
         ∧ sent = authorize (vllm_apiKey pv) built)
  ∧ (∀ (pc : LiteLLMProvider) text sourceLang targetLang sent,
       LiteLLM_request pc text sourceLang targetLang = Ok sent →
       ∃ built,
         http_NewRequest "POST" (lite_apiURL pc)
           (Marshal_LiteLLMChatRequest
              (LiteLLM_reqBody pc (userPrompt text sourceLang targetLang)))
         = Ok built
         ∧ sent = authorize (lite_apiKey pc) built).
Proof.
  rewrite /authorize /Header_Set.
  destruct (String.eqb apiKey ""); cbn [negb Method URL Body Header];
    (repeat split; [by simplify_map_eq..| |]);
    intros p text s t sent; rewrite /VLLM_request /LiteLLM_request;
    destruct (http_NewRequest _ _ _) as [built|]; intros [= <-];
    by exists built.
Qed.

End providers_more.

Lemma llm_translation_is_sanitized_witness :
  @Translate _ (@VLLMProvider_TranslationProvider helloBackend)
    (NewVLLMProvider "http://llm.local/v1/completions" "" "m")
    "안녕하세요" "ko" "en" = Some (Ok "Hello")
  ∧ strings.leadingSpace "Hello" = None ∧ strings.trailingSpace "Hello" = None
  ∧ strings.Index "Hello" noteMarker = None
  ∧ strings.Index "Hello" explanationMarker = None.
Proof.
  assert (@Translate _ (@VLLMProvider_TranslationProvider helloBackend)
            (NewVLLMProvider "http://llm.local/v1/completions" "" "m")
            "안녕하세요" "ko" "en" = Some (Ok "Hello")) as Ht
    by reflexivity.
  split; [exact Ht|].
  exact (@llm_translation_is_sanitized helloBackend
           (NewVLLMProvider "http://llm.local/v1/completions" "" "m")
           (NewLiteLLMProvider "http://llm.local/v1/chat/completions" "" "m")
           "안녕하세요" "ko" "en" "Hello" (or_introl Ht)).
Defined.

Lemma vllm_error_names_the_step_witness :
  @Translate _ (@VLLMProvider_TranslationProvider unavailableBackend)
    (NewVLLMProvider "http://llm.local/v1/completions" "" "m")
    "안녕하세요" "ko" "en" = Some (Err "vLLM API error (status 503): busy")
  ∧ strings.HasPrefix "vLLM API error (status 503): busy" "vLLM API error (status "
    = true.
Proof.
  split; [reflexivity|].
  destruct (@vllm_error_names_the_step unavailableBackend
              (NewVLLMProvider "http://llm.local/v1/completions" "" "m")
              "안녕하세요" "ko" "en" "vLLM API error (status 503): busy"
              eq_refl) as [_|_]; reflexivity.
Defined.

(** ** The message hook *)

Section hook_more.

Lemma translateFor_gate p post : gate p post (translateFor p post).
Proof.
  rewrite /translateFor /GetUser /GetUserInfo /GetTranslationProvider
    /CallTranslate.
  destruct (API_GetUser p (UserId post)) as [user|err] eqn:Hu;
    [|by apply gate_no_user].
  cbn. destruct (IsBot user) eqn:Hb; cbn; [by eapply gate_bot|].
  destruct (getUserInfo p (UserId post)) as [userInfo|err] eqn:Hi; cbn.
  2:{ eapply gate_no_preference; eauto. intros ? ?. congruence. }
  destruct (Activated userInfo) eqn:Ha; cbn.
  2:{ eapply gate_no_preference; eauto. intros ? ?. congruence. }
  destruct (getTranslationProvider p) as [pr|err] eqn:Hp; cbn.
  2:{ by eapply gate_no_provider. }
  assert (eligible p post userInfo pr) as Hel by (by exists user).
  pose proof (gate_translated p post userInfo pr _ Hel eq_refl) as Hg.
  destruct (provider_Translate pr _ _ _) as [[t|e]|]; cbn in *; try done.
  by destruct (String.eqb _ _).
Qed.

Lemma plain_run p post :
  ActivateHooks.MessageHasBeenPosted p post
  = if IsSystemMessage post then ([], Returned)
    else translateFor p post ≫= λ '(userInfo, translatedText),
           postTranslation p
             (plainPost (getConfiguration p) post userInfo translatedText).
Proof.
  rewrite plain_steps. destruct (IsSystemMessage post); [done|].
  by rewrite when_false_bind.
Qed.

Lemma attachment_run p post :
  AttachmentHooks.MessageHasBeenPosted p post
  = if IsSystemMessage post || AttachmentHooks.fromPlugin post
    then ([], Returned)
    else translateFor p post ≫= λ '(userInfo, translatedText),
           postTranslation p
             (attachmentPost (getConfiguration p) post userInfo translatedText).
Proof.
  rewrite attachment_steps. destruct (IsSystemMessage post); [done|].
  rewrite when_false_bind.
  destruct (AttachmentHooks.fromPlugin post); [done|].
  by rewrite when_false_bind.
Qed.

Lemma postTranslation_run p translatedPost :
  postTranslation p translatedPost
  = match API_CreatePost p translatedPost with
    | Ok _ => ([EvCreatePost translatedPost], Next ())
    | Err err =>
        ([EvCreatePost translatedPost;
          EvLogError "Failed to post translated message" "error" err],
         Returned)
    end.
Proof.
  rewrite /postTranslation /CreatePost. by destruct (API_CreatePost p _).
Qed.

(** Splits a goal about a run of either hook into the ways the run can
    go. *)
Ltac hook_cases p post :=
  rewrite ?plain_run ?attachment_run;
  destruct (IsSystemMessage post) eqn:Hsys;
  [|destruct (translateFor_gate p post)
      as [err Hu|user Hu Hb|user Hu Hb Hi|user userInfo err Hu Hb Hi Ha Hp
         |userInfo pr r Hel Hr];
    [..|destruct r as [[t|e]|];
        [destruct (String.eqb (strings.TrimSpace t)
                     (strings.TrimSpace (Message post))) eqn:He|..]]];
  destruct (AttachmentHooks.fromPlugin post) eqn:Hfp;
  cbn -[postTranslation plainPost attachmentPost];
  rewrite ?postTranslation_run;
  repeat match goal with
         | |- context [API_CreatePost ?p ?x] =>
             let Hc := fresh "Hc" in
             destruct (API_CreatePost p x) eqn:Hc
         end;
  cbn -[plainPost attachmentPost].

(** Property X14. Either revision hands at most one post to [CreatePost] and
    logs at most one error for a message. *)
Theorem hook_posts_and_logs_at_most_once p post :
  (length (created (ActivateHooks.MessageHasBeenPosted p post)) ≤ 1
   ∧ length (logged (ActivateHooks.MessageHasBeenPosted p post)) ≤ 1)%nat
  ∧ (length (created (AttachmentHooks.MessageHasBeenPosted p post)) ≤ 1
     ∧ length (logged (AttachmentHooks.MessageHasBeenPosted p post)) ≤ 1)%nat.
Proof. hook_cases p post; repeat split; lia. Qed.

(** Property X15. A post is handed to [CreatePost] exactly when the message is
    no system message (and, in the attachment-styled revision, carries no
    marker), an opted-in person who is no bot wrote it, the provider resolves
    and returns a translation, and that translation differs from the message
    after trimming. *)
Theorem hook_posts_iff p post :
  (created (ActivateHooks.MessageHasBeenPosted p post) ≠ []
   ↔ IsSystemMessage post = false
     ∧ ∃ userInfo pr translatedText,
         eligible p post userInfo pr
         ∧ provider_Translate pr (Message post) (SourceLanguage userInfo)
             (TargetLanguage userInfo) = Some (Ok translatedText)
         ∧ strings.TrimSpace translatedText
           ≠ strings.TrimSpace (Message post))
  ∧ (created (AttachmentHooks.MessageHasBeenPosted p post) ≠ []
     ↔ IsSystemMessage post = false
       ∧ AttachmentHooks.fromPlugin post = false
       ∧ ∃ userInfo pr translatedText,
           eligible p post userInfo pr
           ∧ provider_Translate pr (Message post) (SourceLanguage userInfo)
               (TargetLanguage userInfo) = Some (Ok translatedText)
           ∧ strings.TrimSpace translatedText
             ≠ strings.TrimSpace (Message post)).
Proof.
  assert (∀ userInfo pr translatedText,
            eligible p post userInfo pr →
            provider_Translate pr (Message post) (SourceLanguage userInfo)
              (TargetLanguage userInfo) = Some (Ok translatedText) →
            strings.TrimSpace translatedText
            ≠ strings.TrimSpace (Message post) →
            snd (translateFor p post) = Next (userInfo, translatedText))
    as Hgo.
  { intros ui pr t Hel Ht Hne. rewrite (translateFor_run _ _ _ _ _ Hel Ht) /=.
    by apply String.eqb_neq in Hne as ->. }
  split.
  - rewrite plain_created. split.
    + destruct (IsSystemMessage post); [done|]. intros Hc. split; [done|].
      destruct (translateFor_gate p post)
        as [| | | |ui pr [[t|]|] Hel Hr]; try done.
      simpl in Hc. destruct (String.eqb _ _) eqn:He; [done|].
      apply String.eqb_neq in He. by exists ui, pr, t.
    + intros [-> (ui & pr & t & Hel & Ht & Hne)].
      by rewrite (Hgo _ _ _ Hel Ht Hne).
  - rewrite attachment_created. split.
    + destruct (IsSystemMessage post); [done|].
      destruct (AttachmentHooks.fromPlugin post); [done|].
      intros Hc. do 2 (split; [done|]).
      destruct (translateFor_gate p post)
        as [| | | |ui pr [[t|]|] Hel Hr]; try done.
      simpl in Hc. destruct (String.eqb _ _) eqn:He; [done|].
      apply String.eqb_neq in He. by exists ui, pr, t.
    + intros (-> & -> & ui & pr & t & Hel & Ht & Hne).
      by rewrite (Hgo _ _ _ Hel Ht Hne).
Qed.

(** Property X16. The message text leaves for the provider only for an
    opted-in person who is no bot, and only with the message's own text and
    the languages of that person's preferences. *)
Theorem provider_called_only_for_opted_in p post text sourceLang targetLang :
  In (EvTranslate text sourceLang targetLang)
     (fst (ActivateHooks.MessageHasBeenPosted p post))
  ∨ In (EvTranslate text sourceLang targetLang)
       (fst (AttachmentHooks.MessageHasBeenPosted p post)) →
  IsSystemMessage post = false
  ∧ text = Message post
  ∧ ∃ userInfo pr,
      eligible p post userInfo pr
      ∧ sourceLang = SourceLanguage userInfo
      ∧ targetLang = TargetLanguage userInfo.
Proof.
  hook_cases p post; intros Hin; split; try done;
    try (by destruct Hin as [?|?]; repeat destruct select (_ ∨ _));
    (assert (EvTranslate text sourceLang targetLang
             = EvTranslate (Message post) (SourceLanguage userInfo)
                 (TargetLanguage userInfo)) as [= -> -> ->]
       by (destruct Hin as [?|?];
           repeat destruct select (_ ∨ _); done));
    (split; [done|]); by exists userInfo, pr.
Qed.

Lemma provider_called_only_for_opted_in_witness :
  In (EvTranslate "안녕하세요" "ko" "en")
     (fst (ActivateHooks.MessageHasBeenPosted (stubPlugin "ko" "en" "Hello")
             (userPost "post1" "" "안녕하세요")))
  ∧ IsSystemMessage (userPost "post1" "" "안녕하세요") = false.
Proof.
  assert (In (EvTranslate "안녕하세요" "ko" "en")
            (fst (ActivateHooks.MessageHasBeenPosted
                    (stubPlugin "ko" "en" "Hello")
                    (userPost "post1" "" "안녕하세요")))) as Hin.
  { vm_compute. do 3 right. left. reflexivity. }
  split; [exact Hin|].
  exact (proj1 (provider_called_only_for_opted_in
                  (stubPlugin "ko" "en" "Hello")
                  (userPost "post1" "" "안녕하세요") _ _ _ (or_introl Hin))).
Defined.

(** Property X17. A person without an activated preference gets no reply, and
    nothing of the message reaches the provider: the run ends at the
    preference lookup at the latest. *)
Theorem no_activated_preference_no_translation p post :
  (∀ userInfo, getUserInfo p (UserId post) = Ok userInfo →
               Activated userInfo = false) →
  (created (ActivateHooks.MessageHasBeenPosted p post) = []
   ∧ Forall beforeProvider (fst (ActivateHooks.MessageHasBeenPosted p post)))
  ∧ (created (AttachmentHooks.MessageHasBeenPosted p post) = []
     ∧ Forall beforeProvider
         (fst (AttachmentHooks.MessageHasBeenPosted p post))).
Proof.
  intros Hno.
  assert (∀ userInfo pr, ¬ eligible p post userInfo pr) as Hnel.
  { intros ui pr (user & _ & _ & Hi & Ha & _). apply Hno in Hi. congruence. }
  hook_cases p post; try (by destruct (Hnel _ _ Hel));
    try (apply Hno in Hi; congruence);
    repeat split; repeat constructor.
Qed.

Lemma no_activated_preference_no_translation_witness :
  created (ActivateHooks.MessageHasBeenPosted noPreferencePlugin
             (userPost "post1" "" "안녕하세요")) = []
  ∧ Forall beforeProvider
      (fst (ActivateHooks.MessageHasBeenPosted noPreferencePlugin
              (userPost "post1" "" "안녕하세요"))).
Proof.
  refine (proj1 (no_activated_preference_no_translation noPreferencePlugin
                   (userPost "post1" "" "안녕하세요") _)).
  intros userInfo H. discriminate H.
Defined.

Lemma eligible_unique p post userInfo pr userInfo' pr' :
  eligible p post userInfo pr → eligible p post userInfo' pr' →
  userInfo = userInfo' ∧ pr = pr'.
Proof.
  intros (u & Hu & Hb & Hi & Ha & Hp) (u' & Hu' & Hb' & Hi' & Ha' & Hp').
  split; congruence.
Qed.

Lemma gate_panicked p post :
  snd (translateFor p post) = Panicked
  ↔ ∃ userInfo pr,
      eligible p post userInfo pr
      ∧ provider_Translate pr (Message post) (SourceLanguage userInfo)
          (TargetLanguage userInfo) = None.
Proof.
  split.
  - destruct (translateFor_gate p post) as [| | | |ui pr r Hel Hr]; try done.
    destruct r as [[t|e]|]; simpl; [by destruct (String.eqb _ _)|done|].
    intros _. by exists ui, pr.
  - intros (ui' & pr' & Hel' & Hn).
    destruct (translateFor_gate p post)
      as [err Hu|user Hu Hb|user Hu Hb Hi|user ui err Hu Hb Hi Ha Hp
         |ui pr r Hel Hr];
      try (destruct Hel' as (u' & ? & ? & ? & ? & ?); congruence).
    + destruct Hel' as (u' & ? & ? & Hi' & Ha' & ?).
      apply Hi in Hi'. congruence.
    + destruct (eligible_unique _ _ _ _ _ _ Hel Hel') as [<- <-].
      rewrite Hn in Hr. by subst r.
Qed.

Lemma postTranslation_not_panicked p translatedPost :
  snd (postTranslation p translatedPost) ≠ Panicked.
Proof. rewrite postTranslation_run. by destruct (API_CreatePost p _). Qed.

Lemma bind_post_panicked p post (k : UserInfo → string → Post) :
  snd (translateFor p post ≫= λ '(userInfo, translatedText),
         postTranslation p (k userInfo translatedText)) = Panicked
  ↔ snd (translateFor p post) = Panicked.
Proof.
  destruct (translateFor p post) as [tr [[ui t]| |]]; try done.
  rewrite /mbind /Hook_bind /=.
  pose proof (postTranslation_not_panicked p (k ui t)) as Hn.
  destruct (postTranslation p (k ui t)) as [tr' r']. simpl in *.
  split; [done|by intros [=]].
Qed.

(** Property X18. The hook panics exactly when the provider does: for a
    message that passes the checks before the provider call and a provider
    whose [Translate] panics on it. *)
Theorem hook_panics_iff p post :
  (snd (ActivateHooks.MessageHasBeenPosted p post) = Panicked
   ↔ IsSystemMessage post = false
     ∧ ∃ userInfo pr,
         eligible p post userInfo pr
         ∧ provider_Translate pr (Message post) (SourceLanguage userInfo)
             (TargetLanguage userInfo) = None)
  ∧ (snd (AttachmentHooks.MessageHasBeenPosted p post) = Panicked
     ↔ IsSystemMessage post = false
       ∧ AttachmentHooks.fromPlugin post = false
       ∧ ∃ userInfo pr,
           eligible p post userInfo pr
           ∧ provider_Translate pr (Message post) (SourceLanguage userInfo)
               (TargetLanguage userInfo) = None).
Proof.
  rewrite plain_run attachment_run -gate_panicked.
  destruct (IsSystemMessage post);
    [split; (split; [by intros [=]|by intros ([=] & _)])|].
  split.
  - rewrite (bind_post_panicked p post (plainPost (getConfiguration p) post)).
    split; [done|by intros []].
  - destruct (AttachmentHooks.fromPlugin post); simpl.
    { split; [done|by intros (_ & [=] & _)]. }
    rewrite (bind_post_panicked p post
               (attachmentPost (getConfiguration p) post)).
    split; [done|by intros (_ & _ & ?)].
Qed.

(** Property X19. The attachment-styled revision never answers its own output:
    whatever post it hands to [CreatePost], a post with the same [Props] that
    comes back to the hook, under any plugin state, any identifier, author or
    text, ends the run before the first collaborator call. *)
Theorem attachment_hook_ignores_own_posts p post out p' post' :
  In out (created (AttachmentHooks.MessageHasBeenPosted p post)) →
  Props post' = Props out →
  AttachmentHooks.MessageHasBeenPosted p' post' = ([], Returned).
Proof.
  rewrite attachment_created. intros Hin Hprops.
  apply attachment_loop_guard.
  destruct (_ || _); [done|].
  destruct (snd (translateFor p post)) as [[userInfo t]| |]; try done.
  destruct Hin as [<-|[]].
  by rewrite /AttachmentHooks.fromPlugin Hprops.
Qed.

Lemma attachment_hook_ignores_own_posts_witness :
  AttachmentHooks.MessageHasBeenPosted (stubPlugin "en" "ko" "안녕")
    {| Id := "post2"; ChannelId := "town-square"; UserId := "user1";
       RootId := ""; Message := ""; Type_ := "";
       Props := Props (attachmentPost
                  (getConfiguration (stubPlugin "ko" "en" "Hello"))
                  (userPost "post1" "" "안녕하세요")
                  {| UserID := "user1"; Activated := true;
                     SourceLanguage := "ko"; TargetLanguage := "en" |}
                  "Hello") |}
  = ([], Returned).
Proof.
  apply (attachment_hook_ignores_own_posts (stubPlugin "ko" "en" "Hello")
           (userPost "post1" "" "안녕하세요")
           (attachmentPost (getConfiguration (stubPlugin "ko" "en" "Hello"))
              (userPost "post1" "" "안녕하세요")
              {| UserID := "user1"; Activated := true;
                 SourceLanguage := "ko"; TargetLanguage := "en" |}
              "Hello")).
  - vm_compute. left. reflexivity.
  - reflexivity.
Defined.

(** Property X20. System messages and messages of bot accounts are dropped
    without an error and before the preferences are read: the run makes no
    call beyond the user lookup. *)
Theorem system_and_bot_messages_dropped p post :
  IsSystemMessage post = true
  ∨ (∃ user, API_GetUser p (UserId post) = Ok user ∧ IsBot user = true) →
  (created (ActivateHooks.MessageHasBeenPosted p post) = []
   ∧ logged (ActivateHooks.MessageHasBeenPosted p post) = []
   ∧ Forall stopsAtUser (fst (ActivateHooks.MessageHasBeenPosted p post))
   ∧ snd (ActivateHooks.MessageHasBeenPosted p post) = Returned)
  ∧ (created (AttachmentHooks.MessageHasBeenPosted p post) = []
     ∧ logged (AttachmentHooks.MessageHasBeenPosted p post) = []
     ∧ Forall stopsAtUser (fst (AttachmentHooks.MessageHasBeenPosted p post))
     ∧ snd (AttachmentHooks.MessageHasBeenPosted p post) = Returned).
Proof.
  intros Hdrop.
  assert (IsSystemMessage post = false →
          ∃ user, API_GetUser p (UserId post) = Ok user ∧ IsBot user = true)
    as Hbot.
  { intros Hs. destruct Hdrop as [Hd|Hd]; [congruence|done]. }
  hook_cases p post;
    try (destruct (Hbot eq_refl) as (u & Hu' & Hb'));
    try (destruct Hel as (u'' & Hu'' & Hb'' & _));
    try congruence;
    repeat split; repeat constructor.
Qed.

Lemma system_and_bot_messages_dropped_witness :
  created (ActivateHooks.MessageHasBeenPosted (stubPlugin "ko" "en" "Hello")
             {| Id := "post1"; ChannelId := "town-square"; UserId := "user1";
                RootId := ""; Message := "user1 joined the channel.";
                Type_ := "system_join_channel"; Props := None |}) = [].
Proof.
  refine (proj1 (proj1 (system_and_bot_messages_dropped
                          (stubPlugin "ko" "en" "Hello") _ _))).
  left. reflexivity.
Defined.

(** Property X21. The reply shows the configured bot identity: the user name
    of the configuration, or autotranslate-bot when none is configured, the
    configured icon, and group highlights disabled; it is a new post of the
    original author in the original channel. *)
Theorem reply_carries_bot_identity p post out :
  In out (created (ActivateHooks.MessageHasBeenPosted p post))
  ∨ In out (created (AttachmentHooks.MessageHasBeenPosted p post)) →
  Id out = "" ∧ Type_ out = ""
  ∧ UserId out = UserId post ∧ ChannelId out = ChannelId post
  ∧ ∃ props,
      Props out = Some props
      ∧ props !! "override_username"
        = Some (PropString
                  (if String.eqb (BotUsername (getConfiguration p)) ""
                   then "autotranslate-bot"
                   else BotUsername (getConfiguration p)))
      ∧ props !! "override_icon_url"
        = Some (PropString (BotIconURL (getConfiguration p)))
      ∧ props !! "disable_group_highlight" = Some (PropBool true).
Proof.
  rewrite plain_created attachment_created.
  destruct (IsSystemMessage post); [by intros [[]|[]]|]. simpl.
  destruct (snd (translateFor p post)) as [[userInfo t]| |];
    destruct (AttachmentHooks.fromPlugin post);
    intros [Hin|Hin]; try done; destruct Hin as [<-|[]];
    repeat split; eexists; repeat split; reflexivity.
Qed.

Lemma reply_carries_bot_identity_witness :
  ∃ props,
    Props (plainPost (getConfiguration (stubPlugin "ko" "en" "Hello"))
             (userPost "post1" "" "안녕하세요")
             {| UserID := "user1"; Activated := true; SourceLanguage := "ko";
                TargetLanguage := "en" |} "Hello") = Some props
    ∧ props !! "override_username" = Some (PropString "autotranslate-bot")
    ∧ props !! "override_icon_url" = Some (PropString "")
    ∧ props !! "disable_group_highlight" = Some (PropBool true).
Proof.
  refine (proj2 (proj2 (proj2 (proj2 (reply_carries_bot_identity
            (stubPlugin "ko" "en" "Hello") (userPost "post1" "" "안녕하세요")
            (plainPost (getConfiguration (stubPlugin "ko" "en" "Hello"))
               (userPost "post1" "" "안녕하세요")
               {| UserID := "user1"; Activated := true;
                  SourceLanguage := "ko"; TargetLanguage := "en" |} "Hello")
            _))))).
  left. vm_compute. left. reflexivity.
Defined.

(** Property X22. When the provider returns an error, the hook logs that one
    error and posts nothing; the run ends normally. *)
Theorem translate_error_logged_nothing_posted p post info prov translateErr :
  IsSystemMessage post = false →
  eligible p post info prov →
  provider_Translate prov (Message post) (SourceLanguage info)
    (TargetLanguage info) = Some (Err translateErr) →
  (created (ActivateHooks.MessageHasBeenPosted p post) = []
   ∧ logged (ActivateHooks.MessageHasBeenPosted p post)
     = [EvLogError "Failed to translate message" "error" translateErr]
   ∧ snd (ActivateHooks.MessageHasBeenPosted p post) = Returned)
  ∧ (AttachmentHooks.fromPlugin post = false →
     created (AttachmentHooks.MessageHasBeenPosted p post) = []
     ∧ logged (AttachmentHooks.MessageHasBeenPosted p post)
       = [EvLogError "Failed to translate message" "error" translateErr]
     ∧ snd (AttachmentHooks.MessageHasBeenPosted p post) = Returned).
Proof.
  intros Hs Hel' Ht.
  hook_cases p post; try congruence;
    try (destruct Hel' as (u' & ? & ? & Hi' & ? & ?);
         first [congruence|apply Hi in Hi'; congruence]);
    destruct (eligible_unique _ _ _ _ _ _ Hel Hel') as [<- <-];
    rewrite Ht in Hr; try done; injection Hr as <-; by repeat split.
Qed.

Lemma translate_error_logged_nothing_posted_witness :
  logged (ActivateHooks.MessageHasBeenPosted
            (pluginWith
               (Ok (Provider {| stub_Translate :=
                                  fun _ _ _ => Some (Err "backend down") |}))
               "ko" "en")
            (userPost "post1" "" "안녕하세요"))
  = [EvLogError "Failed to translate message" "error" "backend down"].
Proof.
  refine (proj1 (proj2 (proj1 (translate_error_logged_nothing_posted
     (pluginWith
        (Ok (Provider {| stub_Translate :=
                           fun _ _ _ => Some (Err "backend down") |}))
        "ko" "en")
     (userPost "post1" "" "안녕하세요")
     {| UserID := "user1"; Activated := true; SourceLanguage := "ko";
        TargetLanguage := "en" |}
     (Provider {| stub_Translate := fun _ _ _ => Some (Err "backend down") |})
     "backend down" _ _ _)))).
  - reflexivity.
  - exists {| IsBot := false |}. repeat split; reflexivity.
  - reflexivity.
Defined.

(** Property X23. When the host rejects the reply, the hook logs that one
    error and returns: [CreatePost] is called once and not again. *)
Theorem rejected_reply_logged_not_retried p post userInfo pr translatedText
    err :
  IsSystemMessage post = false →
  eligible p post userInfo pr →
  provider_Translate pr (Message post) (SourceLanguage userInfo)
    (TargetLanguage userInfo) = Some (Ok translatedText) →
  strings.TrimSpace translatedText ≠ strings.TrimSpace (Message post) →
  API_CreatePost p
    (plainPost (getConfiguration p) post userInfo translatedText) = Err err →
  created (ActivateHooks.MessageHasBeenPosted p post)
  = [plainPost (getConfiguration p) post userInfo translatedText]
  ∧ logged (ActivateHooks.MessageHasBeenPosted p post)
    = [EvLogError "Failed to post translated message" "error" err]
  ∧ snd (ActivateHooks.MessageHasBeenPosted p post) = Returned.
Proof.
  intros Hs Hel Ht Hne%String.eqb_neq Hc.
  rewrite plain_run Hs (translateFor_run _ _ _ _ _ Hel Ht) Hne.
  cbn -[postTranslation plainPost]. by rewrite postTranslation_run Hc.
Qed.

Lemma rejected_reply_logged_not_retried_witness :
  logged (ActivateHooks.MessageHasBeenPosted rejectingPlugin
            (userPost "post2" "post1" "안녕하세요"))
  = [EvLogError "Failed to post translated message" "error"
       "Invalid RootId parameter"].
Proof.
  refine (proj1 (proj2 (rejected_reply_logged_not_retried rejectingPlugin
     (userPost "post2" "post1" "안녕하세요")
     {| UserID := "user1"; Activated := true; SourceLanguage := "ko";
        TargetLanguage := "en" |}
     (Provider {| stub_Translate := fun _ _ _ => Some (Ok "Hello") |})
     "Hello" "Invalid RootId parameter" _ _ _ _ _))).
  - reflexivity.
  - exists {| IsBot := false |}. repeat split; reflexivity.
  - reflexivity.
  - vm_compute. discriminate.
  - reflexivity.
Defined.

End hook_more.

(** ** The HTTP API *)

Section api.

(** [getGo] without the monad: the trace and the end of each path. *)
Lemma getGo_run p r :
  getGo p r
  = let postID := Query_Get r "post_id" in
    let source := Query_Get r "source" in
    let target := Query_Get r "target" in
    if String.eqb (Header_Get r "Mattermost-User-ID") ""
    then ([HvError "Not authorized to translate post" StatusUnauthorized],
          Returned)
    else if negb (strings.len postID =? 26)%nat
    then ([HvError "Invalid parameter: post_id" StatusBadRequest], Returned)
    else if (strings.len source <? 2)%nat || (5 <? strings.len source)%nat
    then ([HvError "Invalid parameter: source" StatusBadRequest], Returned)
    else if (strings.len target <? 2)%nat || (5 <? strings.len target)%nat
    then ([HvError "Invalid parameter: target" StatusBadRequest], Returned)
    else
      match API_GetPost p postID with
      | Err _ =>
          ([HvGetPost postID; HvError "No post to translate" StatusBadRequest],
           Returned)
      | Ok (post, updateAt) =>
        match getTranslationProvider (plugin p) with
        | Err providerErr =>
            ([HvGetPost postID; HvGetTranslationProvider;
              HvError ("Failed to initialize translation provider: "
                       +:+ providerErr) StatusInternalServerError],
             Returned)
        | Ok pr =>
          match provider_Translate pr (Message post) source target with
          | None =>
              ([HvGetPost postID; HvGetTranslationProvider;
                HvTranslate (Message post) source target], Panicked)
          | Some (Err translateErr) =>
              ([HvGetPost postID; HvGetTranslationProvider;
                HvTranslate (Message post) source target;
                HvError ("Translation failed: " +:+ translateErr)
                  StatusBadRequest], Returned)
          | Some (Ok translatedText) =>
              ([HvGetPost postID; HvGetTranslationProvider;
                HvTranslate (Message post) source target;
                HvWrite (JTranslatedMessage
                  {| tm_ID := postID +:+ source +:+ target
                              +:+ pretty updateAt;
                     tm_PostID := postID;
                     tm_SourceLanguage := source;
                     tm_SourceText := Message post;
                     tm_TargetLanguage := target;
                     tm_TranslatedText := translatedText;
                     tm_UpdateAt := updateAt |})], Next ())
          end
        end
      end.
Proof.
  rewrite /getGo /CallTranslateH /http_Error /w_Write /hcall /hdo /hreturn
    /hpanic. cbv zeta.
  destruct (String.eqb _ _); [reflexivity|].
  destruct (negb _); [reflexivity|].
  destruct (_ || _); [reflexivity|].
  destruct (_ || _); [reflexivity|].
  destruct (API_GetPost p _) as [[post updateAt]|e]; [|reflexivity].
  destruct (getTranslationProvider _) as [pr|e]; [|reflexivity].
  cbn -[pretty String.append Header_Get Query_Get].
  destruct (provider_Translate pr _ _ _) as [[t|e]|]; reflexivity.
Qed.

Ltac getGo_cases p r :=
  rewrite getGo_run; cbv zeta;
  destruct (String.eqb (Header_Get r "Mattermost-User-ID") "") eqn:Hu;
  [|destruct (strings.len (Query_Get r "post_id") =? 26)%nat eqn:Hp; cbn [negb];
    [destruct ((strings.len (Query_Get r "source") <? 2)%nat
               || (5 <? strings.len (Query_Get r "source"))%nat) eqn:Hs;
     [|destruct ((strings.len (Query_Get r "target") <? 2)%nat
                 || (5 <? strings.len (Query_Get r "target"))%nat) eqn:Ht;
       [|destruct (API_GetPost p (Query_Get r "post_id"))
           as [[post updateAt]|?] eqn:Hg;
         [destruct (getTranslationProvider (plugin p)) as [pr|?] eqn:Hpr;
          [destruct (provider_Translate pr (Message post)
                       (Query_Get r "source") (Query_Get r "target"))
             as [[translatedText|?]|] eqn:Htr|]|]]]|]];
  cbn [fst snd List.filter isResponse length].

(** Property X24. [getGo] answers every request exactly once, with an error or
    with the translated message, unless the provider panics, in which case
    nothing has been written. *)
Theorem getGo_answers_once p r :
  length (List.filter isResponse (fst (getGo p r)))
  = match snd (getGo p r) with Panicked => 0 | _ => 1 end%nat.
Proof. getGo_cases p r; reflexivity. Qed.

(** Property X25. [getGo] calls the provider only for a request that names its
    user and passes validation: a post identifier of 26 bytes, source and
    target codes of 2 to 5 bytes, and a post the host can find; the provider
    gets that post's text and the two codes of the query. *)
Theorem getGo_translates_only_valid_requests p r text sourceLang targetLang :
  In (HvTranslate text sourceLang targetLang) (fst (getGo p r)) →
  Header_Get r "Mattermost-User-ID" ≠ ""
  ∧ strings.len (Query_Get r "post_id") = 26%nat
  ∧ sourceLang = Query_Get r "source" ∧ targetLang = Query_Get r "target"
  ∧ (2 ≤ strings.len sourceLang ≤ 5)%nat
  ∧ (2 ≤ strings.len targetLang ≤ 5)%nat
  ∧ ∃ post updateAt,
      API_GetPost p (Query_Get r "post_id") = Ok (post, updateAt)
      ∧ text = Message post.
Proof.
  getGo_cases p r; intros Hin;
    repeat (destruct Hin as [Hin|Hin]; try done);
    injection Hin as <- <- <-;
    apply String.eqb_neq in Hu; apply Nat.eqb_eq in Hp;
    apply orb_false_iff in Hs as [Hs1%Nat.ltb_ge Hs2%Nat.ltb_ge];
    apply orb_false_iff in Ht as [Ht1%Nat.ltb_ge Ht2%Nat.ltb_ge];
    repeat split; try done; by exists post, updateAt.
Qed.

Lemma getGo_translates_only_valid_requests_witness :
  In (HvTranslate "안녕하세요" "ko" "en") (fst (getGo (stubServer None) goRequest))
  ∧ Header_Get goRequest "Mattermost-User-ID" ≠ "".
Proof.
  assert (In (HvTranslate "안녕하세요" "ko" "en")
            (fst (getGo (stubServer None) goRequest))) as Hin.
  { vm_compute. do 2 right. left. reflexivity. }
  split; [exact Hin|].
  exact (proj1 (getGo_translates_only_valid_requests (stubServer None)
                  goRequest _ _ _ Hin)).
Defined.

(** Property X26. What [getGo] writes as a body is the translated message of
    the post the query names: the post's text, the provider's translation of
    it, the two codes of the query, and an identifier made of the post
    identifier, the two codes and the decimal [UpdateAt] of the post. *)
Theorem getGo_body p r body :
  In (HvWrite body) (fst (getGo p r)) →
  ∃ post updateAt pr translatedText,
    API_GetPost p (Query_Get r "post_id") = Ok (post, updateAt)
    ∧ getTranslationProvider (plugin p) = Ok pr
    ∧ provider_Translate pr (Message post) (Query_Get r "source")
        (Query_Get r "target") = Some (Ok translatedText)
    ∧ body = JTranslatedMessage
        {| tm_ID := Query_Get r "post_id" +:+ Query_Get r "source"
                    +:+ Query_Get r "target" +:+ pretty updateAt;
           tm_PostID := Query_Get r "post_id";
           tm_SourceLanguage := Query_Get r "source";
           tm_SourceText := Message post;
           tm_TargetLanguage := Query_Get r "target";
           tm_TranslatedText := translatedText;
           tm_UpdateAt := updateAt |}
    ∧ snd (getGo p r) = Next ().
Proof.
  getGo_cases p r; intros Hin;
    repeat (destruct Hin as [Hin|Hin]; try done);
    injection Hin as <-. by exists post, updateAt, pr, translatedText.
Qed.

Lemma getGo_body_witness :
  ∃ post updateAt pr translatedText,
    API_GetPost (stubServer None) (Query_Get goRequest "post_id")
    = Ok (post, updateAt)
    ∧ getTranslationProvider (plugin (stubServer None)) = Ok pr
    ∧ provider_Translate pr (Message post) (Query_Get goRequest "source")
        (Query_Get goRequest "target") = Some (Ok translatedText)
    ∧ JTranslatedMessage
        {| tm_ID := "abcdefghijklmnopqrstuvwxyzkoen1700000000000";
           tm_PostID := "abcdefghijklmnopqrstuvwxyz";
           tm_SourceLanguage := "ko";
           tm_SourceText := "안녕하세요";
           tm_TargetLanguage := "en";
           tm_TranslatedText := "Hello";
           tm_UpdateAt := 1700000000000 |}
      = JTranslatedMessage
        {| tm_ID := Query_Get goRequest "post_id"
                    +:+ Query_Get goRequest "source"
                    +:+ Query_Get goRequest "target" +:+ pretty updateAt;
           tm_PostID := Query_Get goRequest "post_id";
           tm_SourceLanguage := Query_Get goRequest "source";
           tm_SourceText := Message post;
           tm_TargetLanguage := Query_Get goRequest "target";
           tm_TranslatedText := translatedText;
           tm_UpdateAt := updateAt |}
    ∧ snd (getGo (stubServer None) goRequest) = Next ().
Proof.
  apply (getGo_body (stubServer None) goRequest).
  vm_compute. do 3 right. left. reflexivity.
Defined.

(** [setInfo] without the monad. *)
Lemma setInfo_run p r :
  setInfo p r
  = let userID := Header_Get r "Mattermost-User-ID" in
    if String.eqb userID ""
    then ([HvError "Not authorized to set info" StatusUnauthorized], Returned)
    else
      match Decode_UserInfo p (ReqBody r) with
      | None =>
          ([HvDecode (ReqBody r);
            HvError "Invalid parameter: info" StatusBadRequest], Returned)
      | Some info =>
        match UserInfo_IsValid p info with
        | Some err =>
            ([HvDecode (ReqBody r); HvInfoIsValid info;
              HvError ("Invalid info: " +:+ err) StatusBadRequest], Returned)
        | None =>
          if negb (String.eqb (UserID info) userID)
          then ([HvDecode (ReqBody r); HvInfoIsValid info;
                 HvError "Invalid parameter: user mismatch" StatusBadRequest],
                Returned)
          else
            match setUserInfo p info with
            | Some err =>
                ([HvDecode (ReqBody r); HvInfoIsValid info; HvSetUserInfo info;
                  HvError "Failed to set info" StatusBadRequest], Returned)
            | None =>
                ([HvDecode (ReqBody r); HvInfoIsValid info; HvSetUserInfo info;
                  HvWrite (JUserInfo info)], Next ())
            end
        end
      end.
Proof.
  rewrite /setInfo /http_Error /w_Write /hcall /hdo /hreturn. cbv zeta.
  destruct (String.eqb _ _); [reflexivity|].
  destruct (Decode_UserInfo p _) as [info|]; [|reflexivity].
  cbn -[String.append Header_Get].
  destruct (UserInfo_IsValid p info); [reflexivity|].
  cbn -[String.append Header_Get].
  destruct (negb _); [reflexivity|].
  cbn -[String.append Header_Get].
  destruct (setUserInfo p info); reflexivity.
Qed.

(** Property X27. [setInfo] stores a record only for the user the request is
    made for: the stored record is the decoded body, it passed [IsValid], and
    its [UserID] is the user of the request header, which is not empty. *)
Theorem setInfo_stores_only_own_record p r info :
  In (HvSetUserInfo info) (fst (setInfo p r)) →
  Header_Get r "Mattermost-User-ID" ≠ ""
  ∧ UserID info = Header_Get r "Mattermost-User-ID"
  ∧ Decode_UserInfo p (ReqBody r) = Some info
  ∧ UserInfo_IsValid p info = None.
Proof.
  rewrite setInfo_run. cbv zeta.
  destruct (String.eqb _ _) eqn:Hu; [by intros [|[]]|].
  apply String.eqb_neq in Hu.
  destruct (Decode_UserInfo p _) as [info'|]; [|by intros [|[|[]]]].
  destruct (UserInfo_IsValid p info') eqn:Hv; [by intros [|[|[|[]]]]|].
  destruct (String.eqb (UserID info') _) eqn:He; cbn [negb];
    [|by intros [|[|[|[]]]]].
  apply String.eqb_eq in He.
  destruct (setUserInfo p info'); intros Hin;
    repeat (destruct Hin as [Hin|Hin]; try done);
    by injection Hin as <-.
Qed.

Lemma setInfo_stores_only_own_record_witness :
  In (HvSetUserInfo {| UserID := "user1"; Activated := true;
                       SourceLanguage := "ko"; TargetLanguage := "en" |})
     (fst (setInfo (stubServer None) (setInfoRequest "user1" "user1")))
  ∧ Header_Get (setInfoRequest "user1" "user1") "Mattermost-User-ID" ≠ "".
Proof.
  assert (In (HvSetUserInfo {| UserID := "user1"; Activated := true;
                               SourceLanguage := "ko"; TargetLanguage := "en" |})
            (fst (setInfo (stubServer None) (setInfoRequest "user1" "user1"))))
    as Hin.
  { vm_compute. do 2 right. left. reflexivity. }
  split; [exact Hin|].
  exact (proj1 (setInfo_stores_only_own_record (stubServer None)
                  (setInfoRequest "user1" "user1") _ Hin)).
Defined.

(** Property X28. [setInfo] ends normally exactly when the request names a
    user, the body decodes to a record that passes [IsValid] and belongs to
    that user, and [setUserInfo] succeeds; it has then decoded, validated,
    stored and written that record, in this order. *)
Theorem setInfo_answers_record_iff_stored p r :
  snd (setInfo p r) = Next ()
  ↔ ∃ info,
      Header_Get r "Mattermost-User-ID" ≠ ""
      ∧ Decode_UserInfo p (ReqBody r) = Some info
      ∧ UserInfo_IsValid p info = None
      ∧ UserID info = Header_Get r "Mattermost-User-ID"
      ∧ setUserInfo p info = None
      ∧ fst (setInfo p r)
        = [HvDecode (ReqBody r); HvInfoIsValid info; HvSetUserInfo info;
           HvWrite (JUserInfo info)].
Proof.
  rewrite setInfo_run. cbv zeta.
  destruct (String.eqb _ _) eqn:Hu.
  { apply String.eqb_eq in Hu. split; [done|]. by intros (? & ? & _). }
  apply String.eqb_neq in Hu.
  destruct (Decode_UserInfo p _) as [info|];
    [|split; [done|by intros (? & _ & [=] & _)]].
  destruct (UserInfo_IsValid p info) eqn:Hv.
  { split; [done|]. intros (? & _ & [= <-] & ? & _). congruence. }
  destruct (String.eqb (UserID info) _) eqn:He; cbn [negb].
  2:{ apply String.eqb_neq in He. split; [done|].
      intros (? & _ & [= <-] & _ & ? & _). done. }
  apply String.eqb_eq in He.
  destruct (setUserInfo p info) eqn:Hs.
  { split; [done|]. intros (? & _ & [= <-] & _ & _ & ? & _). congruence. }
  split; [intros _; by exists info|done].
Qed.

Lemma getInfo_run p r :
  getInfo p r
  = let userID := Header_Get r "Mattermost-User-ID" in
    if String.eqb userID "" then ([], Returned)
    else match getUserInfo (plugin p) userID with
         | Err _ => ([HvGetUserInfo userID], Returned)
         | Ok info => ([HvGetUserInfo userID; HvWrite (JUserInfo info)], Next ())
         end.
Proof.
  rewrite /getInfo /w_Write /hcall /hdo /hreturn. cbv zeta.
  destruct (String.eqb _ _); [reflexivity|].
  by destruct (getUserInfo _ _).
Qed.

(** Property X29. [getInfo] never answers with an error, and the only body it
    writes is the record stored for the user of the request header. *)
Theorem getInfo_writes_own_record p r :
  (∀ msg code, ¬ In (HvError msg code) (fst (getInfo p r)))
  ∧ (∀ body, In (HvWrite body) (fst (getInfo p r)) →
       Header_Get r "Mattermost-User-ID" ≠ ""
       ∧ ∃ info, body = JUserInfo info
           ∧ getUserInfo (plugin p) (Header_Get r "Mattermost-User-ID")
             = Ok info).
Proof.
  rewrite getInfo_run. cbv zeta.
  destruct (String.eqb _ _) eqn:Hu; [split; [by intros ?? []|by intros ? []]|].
  apply String.eqb_neq in Hu.
  destruct (getUserInfo _ _) as [info|] eqn:Hi.
  - split; [by intros ?? [|[|[]]]|].
    intros body [|[[= <-]|[]]]; [done|]. split; [done|]. by exists info.
  - split; [by intros ?? [|[]]|]. by intros body [|[]].
Qed.



End api.
